(** * kiosk-cli: resolution and transaction assembly

    A shallow embedding of [dapps/kiosk-cli/index.js]: the command handlers
    that build a transaction ([newKiosk], [placeItem], [lockItem],
    [takeItem], [listItem], [delistItem], [purchaseItem], [withdrawAll]),
    the two display handlers that check an id or an address
    ([showInventory], [showKioskContents], up to their ledger call) and the
    helpers ([findKioskCap], [sendTx]).

    The handlers are [async] functions over two module-level objects, the
    [provider] (ledger reads) and the [signer] (address, submission).  They
    are embedded in a reader/writer/error monad: the ledger snapshot is
    read, every call on [provider], [signer] and [new TransactionBlock()]
    is logged in order, and a [throw] ends the run with an [Error]. *)

From Stdlib Require Import String Ascii List Bool Arith ZArith Lia Permutation.
Import ListNotations.
Local Open Scope string_scope.
Local Open Scope list_scope.

(** ** Ledger data, as the handlers read it *)

(** [data.owner] of an object response, told apart in the source by the key
    that is present (['AddressOwner' in owner], ['ObjectOwner' in owner],
    ['Shared' in owner]).  These are the three owner records that are
    objects.  The ledger also answers the bare string ['Immutable'], on
    which the [in] operator throws a [TypeError]: that owner is not
    modelled, and every statement below about an owner is a statement
    about these three shapes. *)
Inductive Owner : Type :=
| AddressOwner (address : string)
| ObjectOwner (id : string)
| Shared.

(** [response.data]: the fields the handlers read.  [data_value] is
    [data.content.fields.value], the price stored in a listing field. *)
Record SuiObjectData : Type := {
  data_objectId : string;
  data_version : string;
  data_digest : string;
  data_type : string;
  data_owner : Owner;
  data_value : string
}.

(** What [provider.getObject] and [provider.getDynamicFieldObject] resolve
    to: either key may be absent. *)
Record SuiObjectResponse : Type := {
  resp_error : option string;
  resp_data : option SuiObjectData
}.

(** An element of [getOwnedKiosks(...).kioskOwnerCaps]. *)
Record KioskOwnerCap : Type := {
  cap_objectId : string;
  cap_kioskId : string;
  cap_version : string;
  cap_digest : string
}.

(** An element of the array [queryTransferPolicy] resolves to. *)
Record TransferPolicy : Type := {
  policy_id : string;
  policy_type : string;
  policy_owner : Owner;
  policy_rules : list string;
  policy_balance : string
}.

(** [mainnetEnvironment] and [testnetEnvironment] of [@mysten/kiosk]. *)
Inductive Environment : Type :=
| mainnetEnvironment
| testnetEnvironment.

(** The snapshot one command invocation reads: the signer's address and the
    answers of the four provider queries.  [dynamicFields parent item] is
    the listing field [{ type: KIOSK_LISTING, value: { id: item,
    is_exclusive: false } }] of [parent]. *)
Record Ledger : Type := {
  signer_address : string;
  objects : string -> SuiObjectResponse;
  dynamicFields : string -> string -> SuiObjectResponse;
  transferPolicies : string -> list TransferPolicy;
  ownedKioskCaps : string -> list KioskOwnerCap
}.

(** ** Transaction blocks *)

(** Arguments of an operation: [txb.object(id)], [txb.objectRef({...})],
    [txb.pure(value, type)], the handle a builder returned, or a bare id
    string handed to a builder. *)
Inductive TxArg : Type :=
| ArgObject (id : string)
| ArgObjectRef (objectId version digest : string)
| ArgPure (value type : string)
| ArgResult (index : nat)
| ArgId (id : string).

(** One entry per builder call made on a [TransactionBlock]. *)
Inductive Operation : Type :=
| OpCreateKioskAndShare
| OpTransferObjects (objs : list TxArg) (recipient : TxArg)
| OpPlace (itemType : string) (kiosk cap item : TxArg)
| OpLock (itemType : string) (kiosk cap policy item : TxArg)
| OpTake (itemType : string) (kiosk cap : TxArg) (itemId : string)
| OpList (itemType : string) (kiosk cap : TxArg) (itemId amount : string)
| OpDelist (itemType : string) (kiosk cap : TxArg) (itemId : string)
| OpWithdraw (kiosk cap : TxArg) (amount : option string)
| OpPay (price itemType : string) (fromKiosk : TxArg) (itemId : string)
| OpConfirmRoyalty (policyId : string) (env : Environment)
| OpLockInto (itemType ownedKiosk ownedKioskCap policyId : string)
    (item : TxArg).

Definition TransactionBlock : Type := list Operation.

(** ** Errors: one constructor per [throw new Error(...)] template, carrying
    the values the template interpolates.  The templates written with a
    ["%s"] placeholder pass the value as a second argument of [Error], which
    does not format: the message carries no value. *)
Inductive Error : Type :=
| KioskAlreadyExists (sender : string)
| NoKioskForSender
| NoKioskForSenderCannotPlace
| InvalidItemId
| InvalidReceiverAddress
| InvalidTargetAddress
| InvalidKioskId
| ItemNotFoundError (itemId : string) (error : option string)
| ItemNotOwnedBy (itemId owner : string)
| ItemHasNoTransferPolicy (itemId type : string)
| ItemNotFound (itemId : string) (error : option string)
| ItemNotOwnedByObject (itemId : string)
| DynamicFieldKeyNotFound (itemId : string) (error : option string)
| DynamicFieldKeyNotOwnedByObject (itemId : string)
| ItemNotListed (itemId kioskId : string)
| KioskNotFound (kioskId : string)
| ItemNotFoundAgain (itemId : string)
| NoTransferPolicyForType (type : string)
| InvalidAddress (sender : string)
| NoKioskFoundFor (sender : string)
| InvalidSuiAddress (owner : string)
| InvalidKioskIdOf (id : string)
| NoKioskFoundForAddress (sender : string)
| UnsupportedRule (rule : string)
| BuilderError (message : string).

(** ** What a run does, in order *)
Inductive Event : Type :=
| EvGetAddress
| EvGetObject (id : string)
| EvGetDynamicFieldObject (parentId itemId : string)
| EvQueryTransferPolicy (type : string)
| EvGetOwnedKiosks (address : string)
| EvGetOwnedObjects (owner : string) (cursor filter : option string)
| EvFetchKiosk (kioskId : string)
| EvNewTransactionBlock
| EvSignAndExecute (txb : TransactionBlock).

(** Calls that go to the ledger RPC endpoint. *)
Definition is_ledger_call (e : Event) : bool :=
  match e with
  | EvGetAddress | EvNewTransactionBlock => false
  | _ => true
  end.

Definition is_cap_lookup (e : Event) : bool :=
  match e with
  | EvGetOwnedKiosks _ => true
  | _ => false
  end.

Definition is_new_txb (e : Event) : bool :=
  match e with
  | EvNewTransactionBlock => true
  | _ => false
  end.

Definition is_submit (e : Event) : bool :=
  match e with
  | EvSignAndExecute _ => true
  | _ => false
  end.

(** ** The imported functions that are not in this package

    [isValidSuiAddress] and [isValidSuiObjectId] come from [@mysten/sui.js],
    [purchaseAndResolvePolicies] and [list] from [@mysten/kiosk].
    [purchaseAndResolvePolicies] mutates the block it is given and returns
    [{ item, canTransfer }], or throws.  [list] (here [list_]) is handed
    the amount as the command line gave it and writes it into the block as
    a [u64]: what it does with an amount that is not one is its own
    business, so it is a function of the block, the type, the kiosk, the
    capability, the item id and the amount that returns the block or
    throws. *)
Class Sdk : Type := {
  isValidSuiAddress : string -> bool;
  isValidSuiObjectId : string -> bool;
  purchaseAndResolvePolicies :
    TransactionBlock -> string -> string -> TxArg -> string ->
    TransferPolicy -> Environment -> string * string ->
    Error + (TransactionBlock * TxArg * bool);
  list_ :
    TransactionBlock -> string -> TxArg -> TxArg -> string -> string ->
    Error + TransactionBlock
}.

(** ** The monad of a command run *)
Definition M (A : Type) : Type := Ledger -> list Event * (Error + A).

Definition ret {A} (a : A) : M A := fun _ => ([], inr a).

Definition bind {A B} (m : M A) (f : A -> M B) : M B :=
  fun w =>
    match m w with
    | (t1, inl e) => (t1, inl e)
    | (t1, inr a) =>
        match f a w with
        | (t2, r) => (t1 ++ t2, r)
        end
    end.

Definition throw {A} (e : Error) : M A := fun _ => ([], inl e).

(** [promise.catch(() => null)] *)
Definition catch_null {A} (m : M A) : M (option A) :=
  fun w =>
    match m w with
    | (t, inl _) => (t, inr None)
    | (t, inr a) => (t, inr (Some a))
    end.

Definition lift {A} (r : Error + A) : M A := fun _ => ([], r).

Declare Scope cmd_scope.
Delimit Scope cmd_scope with cmd.
Notation "x <- m ;; k" := (bind m (fun x => k))
  (at level 61, m at next level, right associativity) : cmd_scope.
Notation "m ;; k" := (bind m (fun _ => k))
  (at level 61, right associativity) : cmd_scope.
Local Open Scope cmd_scope.

(** The trace and the outcome of running [m] on the snapshot [w]. *)
Definition trace {A} (m : M A) (w : Ledger) : list Event := fst (m w).
Definition outcome {A} (m : M A) (w : Ledger) : Error + A := snd (m w).

(** *** Primitive calls

    Every call on the provider and on the signer answers: a promise that
    rejects (the endpoint cannot be reached) is not modelled, so the only
    errors of a run are the ones the handlers and the imported functions
    throw. *)

Definition signer_getAddress : M string :=
  fun w => ([EvGetAddress], inr (signer_address w)).

Definition provider_getObject (id : string) : M SuiObjectResponse :=
  fun w => ([EvGetObject id], inr (objects w id)).

Definition provider_getDynamicFieldObject (parentId itemId : string)
  : M SuiObjectResponse :=
  fun w => ([EvGetDynamicFieldObject parentId itemId],
            inr (dynamicFields w parentId itemId)).

Definition queryTransferPolicy (type : string) : M (list TransferPolicy) :=
  fun w => ([EvQueryTransferPolicy type], inr (transferPolicies w type)).

Definition getOwnedKiosks (address : string) : M (list KioskOwnerCap) :=
  fun w => ([EvGetOwnedKiosks address], inr (ownedKioskCaps w address)).

(** [provider.getOwnedObjects] and [fetchKiosk]: the display commands only
    print what these resolve to. *)
Definition provider_getOwnedObjects (owner : string)
  (cursor filter : option string) : M unit :=
  fun _ => ([EvGetOwnedObjects owner cursor filter], inr tt).

Definition fetchKiosk (kioskId : string) : M unit :=
  fun _ => ([EvFetchKiosk kioskId], inr tt).

Definition new_TransactionBlock : M TransactionBlock :=
  fun _ => ([EvNewTransactionBlock], inr []).

(** *** JavaScript idioms *)

(** A string option of the command line is truthy when it is present and
    not empty; [js_truthy] keeps the string exactly then. *)
Definition js_truthy (o : option string) : option string :=
  match o with
  | Some s => if String.eqb s "" then None else Some s
  | None => None
  end.

(** [value || (await alternative)] on strings: the alternative runs only
    when the value is falsy. *)
Definition or_else (o : option string) (m : M string) : M string :=
  match js_truthy o with
  | Some s => ret s
  | None => m
  end.

(** ['error' in response || !response.data] throws [e]; otherwise the
    handler goes on with [response.data]. *)
Definition require_data (r : SuiObjectResponse) (e : Error)
  : M SuiObjectData :=
  match resp_error r, resp_data r with
  | None, Some d => ret d
  | _, _ => throw e
  end.

(** [!('AddressOwner' in owner) || owner.AddressOwner !== address] *)
Definition not_owned_by (o : Owner) (address : string) : bool :=
  match o with
  | AddressOwner a => negb (String.eqb a address)
  | _ => true
  end.

(** ** Builders of [@mysten/kiosk] and of [TransactionBlock]

    The builders imported from [@mysten/kiosk] and [txb.transferObjects]
    are not in this package.  The spec's plans name one operation per
    builder call ([[place]], [[pay, confirm-royalty, transfer]]), so each
    builder appends the one operation that records its call, and a builder
    that returns a value returns the handle of that operation.  The
    builders below are handed ids, handles and addresses the handler has
    checked or made itself; [list], which is handed the caller's amount
    unchecked, is among the imports above. *)

(** [txb.objectRef({ ...kioskCap })] *)
Definition objectRef_cap (c : KioskOwnerCap) : TxArg :=
  ArgObjectRef (cap_objectId c) (cap_version c) (cap_digest c).

(** [txb.objectRef({ ...item.data })] *)
Definition objectRef_data (d : SuiObjectData) : TxArg :=
  ArgObjectRef (data_objectId d) (data_version d) (data_digest d).

(** Modelled from the spec: [createKioskAndShare] of [@mysten/kiosk], which
    creates and shares a kiosk and returns the handle of its owner
    capability. *)
Definition createKioskAndShare (txb : TransactionBlock)
  : TransactionBlock * TxArg :=
  (txb ++ [OpCreateKioskAndShare], ArgResult (length txb)).

(** Modelled from the spec: [txb.transferObjects] of [@mysten/sui.js], the
    plan's transfer operation. *)
Definition transferObjects (txb : TransactionBlock) (objs : list TxArg)
  (recipient : TxArg) : TransactionBlock :=
  txb ++ [OpTransferObjects objs recipient].

(** Modelled from the spec: [place] of [@mysten/kiosk], the plan's place
    operation. *)
Definition place (txb : TransactionBlock) (itemType : string)
  (kiosk cap item : TxArg) : TransactionBlock :=
  txb ++ [OpPlace itemType kiosk cap item].

(** Modelled from the spec: [lock] of [@mysten/kiosk], the plan's lock
    operation. *)
Definition lock (txb : TransactionBlock) (itemType : string)
  (kiosk cap policy item : TxArg) : TransactionBlock :=
  txb ++ [OpLock itemType kiosk cap policy item].

(** Modelled from the spec: [take] of [@mysten/kiosk]; returns the handle
    of the item taken. *)
Definition take (txb : TransactionBlock) (itemType : string)
  (kiosk cap : TxArg) (itemId : string) : TransactionBlock * TxArg :=
  (txb ++ [OpTake itemType kiosk cap itemId], ArgResult (length txb)).

(** Modelled from the spec: [delist] of [@mysten/kiosk]. *)
Definition delist (txb : TransactionBlock) (itemType : string)
  (kiosk cap : TxArg) (itemId : string) : TransactionBlock :=
  txb ++ [OpDelist itemType kiosk cap itemId].

(** Modelled from the spec: [withdrawFromKiosk] of [@mysten/kiosk]; returns
    the handle of the coin withdrawn. *)
Definition withdrawFromKiosk (txb : TransactionBlock) (kiosk cap : TxArg)
  (amount : option string) : TransactionBlock * TxArg :=
  (txb ++ [OpWithdraw kiosk cap amount], ArgResult (length txb)).

(** [KNOWN_TYPES]: shorthands of the [search] and [inventory] commands. *)
Definition KNOWN_TYPES : list (string * string) :=
  [("suifren",
    "0x80d7de9c4a56194087e0ba0bf59492aa8e6a5ee881606226930827085ddf2332::suifrens::SuiFren<0x80d7de9c4a56194087e0ba0bf59492aa8e6a5ee881606226930827085ddf2332::capy::Capy>")].

(** [KNOWN_TYPES[type] || type] *)
Definition known_type (type : string) : string :=
  match find (fun entry => String.eqb (fst entry) type) KNOWN_TYPES with
  | Some entry => snd entry
  | None => type
  end.

(** The options object of [inventory]:
    [{ address, onlyDisplay, cursor, filter }]. *)
Record InventoryOptions : Type := {
  inv_address : option string;
  inv_onlyDisplay : bool;
  inv_cursor : option string;
  inv_filter : option string
}.

(** The options object of [contents]: [{ id, address }]. *)
Record ContentsOptions : Type := {
  con_id : option string;
  con_address : option string
}.

(** The options object of [purchase]: [{ target, kiosk, env }]. *)
Record PurchaseOptions : Type := {
  opt_target : option string;
  opt_kiosk : option string;
  opt_env : option string
}.

(** [target && target !== 'kiosk' && !isValidSuiAddress(target)] *)
Definition invalid_target {sdk : Sdk} (target : option string) : bool :=
  match js_truthy target with
  | Some t => negb (String.eqb t "kiosk") && negb (isValidSuiAddress t)
  | None => false
  end.

(** [inputKioskId && !isValidSuiObjectId(inputKioskId)] *)
Definition invalid_kiosk {sdk : Sdk} (inputKioskId : option string) : bool :=
  match js_truthy inputKioskId with
  | Some k => negb (isValidSuiObjectId k)
  | None => false
  end.

(** [target === 'kiosk'] *)
Definition is_kiosk_target (target : option string) : bool :=
  match target with
  | Some t => String.eqb t "kiosk"
  | None => false
  end.

(** [env && env == 'mainnet' ? mainnetEnvironment : testnetEnvironment] *)
Definition envOption_of (env : option string) : Environment :=
  match js_truthy env with
  | Some e => if String.eqb e "mainnet" then mainnetEnvironment
              else testnetEnvironment
  | None => testnetEnvironment
  end.

(** ** The handlers *)

Section Handlers.
Context {sdk : Sdk}.

(** [sendTx]: hands the block to [signer.signAndExecuteTransactionBlock].
    The run records the submission and ends with it: what the ledger
    answers, whether the promise rejects and what the [then] callback
    prints are not modelled.  The outcome [inr tt] of a handler therefore
    says that the handler issued the submission, not that the ledger
    accepted the block. *)
Definition sendTx (txb : TransactionBlock) : M unit :=
  fun _ => ([EvSignAndExecute txb], inr tt).

(** [findKioskCap(address)] *)
Definition findKioskCap (address : option string) : M KioskOwnerCap :=
  sender <- or_else address signer_getAddress ;;
  if negb (isValidSuiAddress sender) then throw (InvalidAddress sender)
  else
    kioskOwnerCaps <- getOwnedKiosks sender ;;
    match kioskOwnerCaps with
    | [] => throw (NoKioskFoundFor sender)
    | first :: _ => ret first
    end.

(** Command [new] *)
Definition newKiosk : M unit :=
  sender <- signer_getAddress ;;
  kioskCap <- catch_null (findKioskCap None) ;;
  match kioskCap with
  | Some _ => throw (KioskAlreadyExists sender)
  | None =>
      txb <- new_TransactionBlock ;;
      let '(txb, cap) := createKioskAndShare txb in
      let txb := transferObjects txb [cap] (ArgPure sender "address") in
      sendTx txb
  end.

(** Command [inventory]; the table it prints is not modelled. *)
Definition showInventory (opts : InventoryOptions) : M unit :=
  owner <- or_else (inv_address opts) signer_getAddress ;;
  if negb (isValidSuiAddress owner) then throw (InvalidSuiAddress owner)
  else
    let filter :=
      match js_truthy (inv_filter opts) with
      | Some f => Some (known_type f)
      | None => None
      end in
    provider_getOwnedObjects owner (inv_cursor opts) filter.

(** Command [contents]; the description and the table it prints are not
    modelled. *)
Definition showKioskContents (opts : ContentsOptions) : M unit :=
  kioskId <-
    match js_truthy (con_id opts) with
    | Some id =>
        if negb (isValidSuiObjectId id) then throw (InvalidKioskIdOf id)
        else ret id
    | None =>
        sender <- or_else (con_address opts) signer_getAddress ;;
        if negb (isValidSuiAddress sender)
        then throw (InvalidSuiAddress sender)
        else
          kioskCap <- catch_null (findKioskCap (Some sender)) ;;
          match kioskCap with
          | None => throw (NoKioskFoundForAddress sender)
          | Some kioskCap => ret (cap_kioskId kioskCap)
          end
    end ;;
  fetchKiosk kioskId.

(** Command [place] *)
Definition placeItem (itemId : string) : M unit :=
  kioskCap <- catch_null (findKioskCap None) ;;
  owner <- signer_getAddress ;;
  match kioskCap with
  | None => throw NoKioskForSender
  | Some kioskCap =>
      if negb (isValidSuiObjectId itemId) then throw InvalidItemId
      else
        item <- provider_getObject itemId ;;
        data <- require_data item
                  (ItemNotFoundError itemId (resp_error item)) ;;
        if not_owned_by (data_owner data) owner
        then throw (ItemNotOwnedBy itemId owner)
        else
          txb <- new_TransactionBlock ;;
          let capArg := objectRef_cap kioskCap in
          let itemArg := objectRef_data data in
          let kioskArg := ArgObject (cap_kioskId kioskCap) in
          sendTx (place txb (data_type data) kioskArg capArg itemArg)
  end.

(** Command [lock] *)
Definition lockItem (itemId : string) : M unit :=
  kioskCap <- catch_null (findKioskCap None) ;;
  owner <- signer_getAddress ;;
  match kioskCap with
  | None => throw NoKioskForSender
  | Some kioskCap =>
      if negb (isValidSuiObjectId itemId) then throw InvalidItemId
      else
        item <- provider_getObject itemId ;;
        data <- require_data item
                  (ItemNotFoundError itemId (resp_error item)) ;;
        if not_owned_by (data_owner data) owner
        then throw (ItemNotOwnedBy itemId owner)
        else
          policies <- queryTransferPolicy (data_type data) ;;
          match policies with
          | [] => throw (ItemHasNoTransferPolicy itemId (data_type data))
          | policy :: _ =>
              txb <- new_TransactionBlock ;;
              let capArg := objectRef_cap kioskCap in
              let itemArg := objectRef_data data in
              let policyArg := ArgObject (policy_id policy) in
              let kioskArg := ArgObject (cap_kioskId kioskCap) in
              sendTx (lock txb (data_type data) kioskArg capArg policyArg
                        itemArg)
          end
  end.

(** Command [take] *)
Definition takeItem (itemId : string) (address : option string) : M unit :=
  kioskCap <- catch_null (findKioskCap None) ;;
  receiver <- or_else address signer_getAddress ;;
  if negb (isValidSuiAddress receiver) then throw InvalidReceiverAddress
  else if negb (isValidSuiObjectId itemId) then throw InvalidItemId
  else
    match kioskCap with
    | None => throw NoKioskForSender
    | Some kioskCap =>
        item <- provider_getObject itemId ;;
        data <- require_data item
                  (ItemNotFoundError itemId (resp_error item)) ;;
        txb <- new_TransactionBlock ;;
        let kioskArg := ArgObject (cap_kioskId kioskCap) in
        let capArg := objectRef_cap kioskCap in
        let '(txb, taken) :=
          take txb (data_type data) kioskArg capArg itemId in
        sendTx (transferObjects txb [taken] (ArgPure receiver "address"))
    end.

(** Command [list] *)
Definition listItem (itemId amount : string) : M unit :=
  kioskCap <- catch_null (findKioskCap None) ;;
  match kioskCap with
  | None => throw NoKioskForSender
  | Some kioskCap =>
      if negb (isValidSuiObjectId itemId) then throw InvalidItemId
      else
        item <- provider_getObject itemId ;;
        data <- require_data item
                  (ItemNotFoundError itemId (resp_error item)) ;;
        txb <- new_TransactionBlock ;;
        let kioskArg := ArgObject (cap_kioskId kioskCap) in
        let capArg := objectRef_cap kioskCap in
        txb <- lift (list_ txb (data_type data) kioskArg capArg itemId
                       amount) ;;
        sendTx txb
  end.

(** Command [delist] *)
Definition delistItem (itemId : string) : M unit :=
  kioskCap <- catch_null (findKioskCap None) ;;
  match kioskCap with
  | None => throw NoKioskForSender
  | Some kioskCap =>
      if negb (isValidSuiObjectId itemId) then throw InvalidItemId
      else
        item <- provider_getObject itemId ;;
        data <- require_data item
                  (ItemNotFoundError itemId (resp_error item)) ;;
        txb <- new_TransactionBlock ;;
        let kioskArg := ArgObject (cap_kioskId kioskCap) in
        let capArg := objectRef_cap kioskCap in
        sendTx (delist txb (data_type data) kioskArg capArg itemId)
  end.

(** Command [withdraw] *)
Definition withdrawAll : M unit :=
  sender <- signer_getAddress ;;
  kioskCap <- catch_null (findKioskCap (Some sender)) ;;
  match kioskCap with
  | None => throw NoKioskForSender
  | Some kioskCap =>
      let kioskId := cap_kioskId kioskCap in
      txb <- new_TransactionBlock ;;
      let kioskArg := ArgObject kioskId in
      let capArg := objectRef_cap kioskCap in
      let '(txb, coin) := withdrawFromKiosk txb kioskArg capArg None in
      sendTx (transferObjects txb [coin] (ArgPure sender "address"))
  end.

(** Command [purchase].  The three reads joined by [Promise.all] are issued
    in the order of the array literal. *)
Definition purchaseItem (itemId : string) (opts : PurchaseOptions)
  : M unit :=
  let target := opt_target opts in
  let inputKioskId := opt_kiosk opts in
  let env := opt_env opts in
  if invalid_target target then throw InvalidTargetAddress
  else if invalid_kiosk inputKioskId then throw InvalidKioskId
  else if negb (isValidSuiObjectId itemId) then throw InvalidItemId
  else
    itemInfo <- provider_getObject itemId ;;
    info <- require_data itemInfo
              (ItemNotFound itemId (resp_error itemInfo)) ;;
    match data_owner info with
    | ObjectOwner itemKeyId =>
        kioskId <-
          match js_truthy inputKioskId with
          | Some kioskId => ret kioskId
          | None =>
              itemKey <- provider_getObject itemKeyId ;;
              key <- require_data itemKey
                       (DynamicFieldKeyNotFound itemId
                          (resp_error itemKey)) ;;
              match data_owner key with
              | ObjectOwner kioskId => ret kioskId
              | _ => throw (DynamicFieldKeyNotOwnedByObject itemId)
              end
          end ;;
        kiosk <- provider_getObject kioskId ;;
        policies <- queryTransferPolicy (data_type info) ;;
        listing <- provider_getDynamicFieldObject kioskId itemId ;;
        listingData <- require_data listing
                         (ItemNotListed itemId kioskId) ;;
        kioskData <- require_data kiosk (KioskNotFound kioskId) ;;
        _ <- require_data itemInfo (ItemNotFoundAgain itemId) ;;
        match policies with
        | [] => throw (NoTransferPolicyForType (data_type info))
        | policy :: _ =>
            let envOption := envOption_of env in
            let price := data_value listingData in
            txb <- new_TransactionBlock ;;
            let fromKioskArg := ArgObject (data_objectId kioskData) in
            kioskCap <- catch_null (findKioskCap None) ;;
            match kioskCap with
            | None => throw NoKioskForSenderCannotPlace
            | Some kioskCap =>
                let ownedKiosk := cap_kioskId kioskCap in
                let ownedKioskCap := cap_objectId kioskCap in
                resolved <- lift (purchaseAndResolvePolicies txb
                                    (data_type info) price fromKioskArg
                                    (data_objectId info) policy envOption
                                    (ownedKiosk, ownedKioskCap)) ;;
                let '(txb, item, canTransfer) := resolved in
                if negb canTransfer then sendTx txb
                else if is_kiosk_target target
                then sendTx (place txb (data_type info) (ArgId ownedKiosk)
                               (ArgId ownedKioskCap) item)
                else
                  receiver <- or_else target signer_getAddress ;;
                  sendTx (transferObjects txb [item]
                            (ArgPure receiver "address"))
            end
        end
    | _ => throw (ItemNotOwnedByObject itemId)
    end.

(** *** The phases of [purchaseItem]

    The handler is one function; its consecutive parts are named here so
    that statements can speak of the kiosk id it resolved and of the
    context it hands to rule resolution.  [purchaseItem_phases] below
    proves that the parts compose to [purchaseItem]. *)

(** What [purchaseItem] holds when it reaches line 574: [itemInfo.data],
    [kioskId], [kiosk.data], [policies[0]] and [listing.data]. *)
Record PurchaseContext : Type := {
  ctx_info : SuiObjectData;
  ctx_kioskId : string;
  ctx_kiosk : SuiObjectData;
  ctx_policy : TransferPolicy;
  ctx_listing : SuiObjectData
}.

(** Lines 502-547: input checks, the item fetch and the kiosk id. *)
Definition purchaseItem_kioskId (itemId : string) (opts : PurchaseOptions)
  : M (SuiObjectData * string) :=
  let target := opt_target opts in
  let inputKioskId := opt_kiosk opts in
  if invalid_target target then throw InvalidTargetAddress
  else if invalid_kiosk inputKioskId then throw InvalidKioskId
  else if negb (isValidSuiObjectId itemId) then throw InvalidItemId
  else
    itemInfo <- provider_getObject itemId ;;
    info <- require_data itemInfo
              (ItemNotFound itemId (resp_error itemInfo)) ;;
    match data_owner info with
    | ObjectOwner itemKeyId =>
        match js_truthy inputKioskId with
        | Some kioskId => ret (info, kioskId)
        | None =>
            itemKey <- provider_getObject itemKeyId ;;
            key <- require_data itemKey
                     (DynamicFieldKeyNotFound itemId (resp_error itemKey)) ;;
            match data_owner key with
            | ObjectOwner kioskId => ret (info, kioskId)
            | _ => throw (DynamicFieldKeyNotOwnedByObject itemId)
            end
        end
    | _ => throw (ItemNotOwnedByObject itemId)
    end.

(** Lines 549-572: the three joined reads and the checks on them.  The
    second check of [itemInfo] (line 566) repeats line 526 on the same
    response and cannot fail here. *)
Definition purchaseItem_reads (itemId : string) (info : SuiObjectData)
  (kioskId : string) : M PurchaseContext :=
  kiosk <- provider_getObject kioskId ;;
  policies <- queryTransferPolicy (data_type info) ;;
  listing <- provider_getDynamicFieldObject kioskId itemId ;;
  listingData <- require_data listing (ItemNotListed itemId kioskId) ;;
  kioskData <- require_data kiosk (KioskNotFound kioskId) ;;
  match policies with
  | [] => throw (NoTransferPolicyForType (data_type info))
  | policy :: _ =>
      ret {| ctx_info := info; ctx_kioskId := kioskId;
             ctx_kiosk := kioskData; ctx_policy := policy;
             ctx_listing := listingData |}
  end.

(** Lines 502-572. *)
Definition purchaseItem_context (itemId : string) (opts : PurchaseOptions)
  : M PurchaseContext :=
  located <- purchaseItem_kioskId itemId opts ;;
  purchaseItem_reads itemId (fst located) (snd located).

(** Lines 604-609: the destination operation appended when the item may
    leave kiosk custody. *)
Definition purchaseItem_destination (target : option string)
  (itemType : string) (kioskCap : KioskOwnerCap) (item : TxArg)
  (txb : TransactionBlock) : M unit :=
  if is_kiosk_target target
  then sendTx (place txb itemType (ArgId (cap_kioskId kioskCap))
                 (ArgId (cap_objectId kioskCap)) item)
  else
    receiver <- or_else target signer_getAddress ;;
    sendTx (transferObjects txb [item] (ArgPure receiver "address")).

(** Lines 588-597: the call of rule resolution on the block [txb]. *)
Definition rule_resolution (opts : PurchaseOptions) (ctx : PurchaseContext)
  (kioskCap : KioskOwnerCap) (txb : TransactionBlock)
  : Error + (TransactionBlock * TxArg * bool) :=
  purchaseAndResolvePolicies txb (data_type (ctx_info ctx))
    (data_value (ctx_listing ctx))
    (ArgObject (data_objectId (ctx_kiosk ctx)))
    (data_objectId (ctx_info ctx)) (ctx_policy ctx)
    (envOption_of (opt_env opts))
    (cap_kioskId kioskCap, cap_objectId kioskCap).

(** Lines 574-611: the block, the capability, rule resolution and the
    submission. *)
Definition purchaseItem_assemble (opts : PurchaseOptions)
  (ctx : PurchaseContext) : M unit :=
  let info := ctx_info ctx in
  txb <- new_TransactionBlock ;;
  kioskCap <- catch_null (findKioskCap None) ;;
  match kioskCap with
  | None => throw NoKioskForSenderCannotPlace
  | Some kioskCap =>
      resolved <- lift (rule_resolution opts ctx kioskCap txb) ;;
      let '(txb, item, canTransfer) := resolved in
      if negb canTransfer then sendTx txb
      else purchaseItem_destination (opt_target opts) (data_type info)
             kioskCap item txb
  end.

End Handlers.

(** ** Rule resolution, from the spec *)

(** The rule types the spec's engine knows, and the rest. *)
Inductive RuleKind : Type :=
| RoyaltyRule
| KioskLockRule
| UnknownRule.

Section RuleEngine.
Variable ruleKind : string -> RuleKind.

(** Modelled from the spec: the per-rule step of [resolveRules] (4.3).  The
    rules are taken in the order the policy stores them; a royalty rule adds
    a confirm-rule operation, a kiosk-lock rule adds a lock into the
    caller's kiosk and clears [canTransfer], which no later rule sets
    again; a rule type the engine does not know is a hard failure. *)
Fixpoint resolveRuleList (rules : list string) (itemType policyId : string)
  (env : Environment) (owned : string * string) (item : TxArg)
  (txb : TransactionBlock) (canTransfer : bool)
  : Error + (TransactionBlock * bool) :=
  match rules with
  | [] => inr (txb, canTransfer)
  | rule :: rest =>
      match ruleKind rule with
      | RoyaltyRule =>
          resolveRuleList rest itemType policyId env owned item
            (txb ++ [OpConfirmRoyalty policyId env]) canTransfer
      | KioskLockRule =>
          resolveRuleList rest itemType policyId env owned item
            (txb ++ [OpLockInto itemType (fst owned) (snd owned) policyId
                       item]) false
      | UnknownRule => inl (UnsupportedRule rule)
      end
  end.

(** Modelled from the spec: [purchaseAndResolvePolicies] of [@mysten/kiosk]
    is not in this package; this is the spec's [resolveRules] (4.3) with
    the arguments of the call in [purchaseItem].  The purchase debit comes
    first, then the rule-satisfying operations in rule order; [canTransfer]
    starts true. *)
Definition resolveRules (txb : TransactionBlock) (itemType price : string)
  (fromKiosk : TxArg) (itemId : string) (policy : TransferPolicy)
  (env : Environment) (owned : string * string)
  : Error + (TransactionBlock * TxArg * bool) :=
  let item := ArgResult (length txb) in
  match resolveRuleList (policy_rules policy) itemType (policy_id policy)
          env owned item (txb ++ [OpPay price itemType fromKiosk itemId])
          true with
  | inl e => inl e
  | inr (txb', canTransfer) => inr (txb', item, canTransfer)
  end.

End RuleEngine.


(** The imports with the spec's rule engine for
    [purchaseAndResolvePolicies]. *)
Definition specSdk (validAddress validObjectId : string -> bool)
  (ruleKind : string -> RuleKind)
  (listBuilder : TransactionBlock -> string -> TxArg -> TxArg -> string ->
                 string -> Error + TransactionBlock) : Sdk :=
  {| isValidSuiAddress := validAddress;
     isValidSuiObjectId := validObjectId;
     purchaseAndResolvePolicies := resolveRules ruleKind;
     list_ := listBuilder |}.

(** ** Variations of a ledger *)

Definition with_caps (w : Ledger) (caps : string -> list KioskOwnerCap)
  : Ledger :=
  {| signer_address := signer_address w;
     objects := objects w;
     dynamicFields := dynamicFields w;
     transferPolicies := transferPolicies w;
     ownedKioskCaps := caps |}.


(** The blocks a run submitted, in order. *)
Definition submitted (t : list Event) : list TransactionBlock :=
  flat_map (fun e => match e with
                     | EvSignAndExecute txb => [txb]
                     | _ => []
                     end) t.

(** ** Reading runs *)

(** The object ids and addresses an error message carries. *)
Definition error_ids (e : Error) : list string :=
  match e with
  | KioskAlreadyExists sender => [sender]
  | ItemNotFoundError itemId _ => [itemId]
  | ItemNotOwnedBy itemId owner => [itemId; owner]
  | ItemHasNoTransferPolicy itemId _ => [itemId]
  | ItemNotFound itemId _ => [itemId]
  | ItemNotOwnedByObject itemId => [itemId]
  | DynamicFieldKeyNotFound itemId _ => [itemId]
  | DynamicFieldKeyNotOwnedByObject itemId => [itemId]
  | ItemNotListed itemId kioskId => [itemId; kioskId]
  | KioskNotFound kioskId => [kioskId]
  | ItemNotFoundAgain itemId => [itemId]
  | InvalidAddress sender => [sender]
  | NoKioskFoundFor sender => [sender]
  | InvalidSuiAddress owner => [owner]
  | InvalidKioskIdOf id => [id]
  | NoKioskFoundForAddress sender => [sender]
  | _ => []
  end.

Definition is_no_kiosk_error (e : Error) : bool :=
  match e with
  | NoKioskForSender | NoKioskForSenderCannotPlace => true
  | _ => false
  end.

Definition is_invalid_input (e : Error) : bool :=
  match e with
  | InvalidItemId | InvalidReceiverAddress | InvalidTargetAddress
  | InvalidKioskId | InvalidSuiAddress _ | InvalidKioskIdOf _ => true
  | _ => false
  end.

(** No block was created and none was submitted. *)
Definition no_transaction (t : list Event) : bool :=
  forallb (fun e => negb (is_new_txb e || is_submit e)) t.

(** The three reads that [Promise.all] joins. *)
Definition joined_reads (itemId : string) (info : SuiObjectData)
  (kioskId : string) : list Event :=
  [EvGetObject kioskId; EvQueryTransferPolicy (data_type info);
   EvGetDynamicFieldObject kioskId itemId].

(** The events of the last phase of a purchase before its submission, when
    the capability lookup reaches the ledger. *)
Definition assembly_prefix (w : Ledger) : list Event :=
  [EvNewTransactionBlock; EvGetAddress;
   EvGetOwnedKiosks (signer_address w)].

(** The block [newKiosk] submits for the sender. *)
Definition new_kiosk_block (sender : string) : TransactionBlock :=
  [OpCreateKioskAndShare;
   OpTransferObjects [ArgResult 0] (ArgPure sender "address")].


(** Operations that move the purchased item to its destination. *)
Definition is_destination (op : Operation) : bool :=
  match op with
  | OpTransferObjects _ _ | OpPlace _ _ _ _ => true
  | _ => false
  end.


(** The response passes ['error' in r || !r.data] with data [d]. *)
Definition found (r : SuiObjectResponse) (d : SuiObjectData) : Prop :=
  resp_error r = None /\ resp_data r = Some d.

Definition missing (r : SuiObjectResponse) : Prop :=
  resp_error r <> None \/ resp_data r = None.

(** The only ledger call of the run, if any, is the capability lookup. *)
Definition only_cap_lookup (t : list Event) : bool :=
  forallb (fun e => negb (is_ledger_call e) || is_cap_lookup e) t.

Definition fails_with (p : Error -> bool) {A} (r : Error + A) : bool :=
  match r with
  | inl e => p e
  | inr _ => false
  end.

(** A run fails with the no-kiosk error as its first check: the only ledger
    call it made is the capability lookup, and it created no block. *)
Definition no_kiosk_first (run : list Event * (Error + unit)) : bool :=
  fails_with is_no_kiosk_error (snd run)
  && only_cap_lookup (fst run)
  && no_transaction (fst run).


(** A run fails with an invalid-input error after the capability lookup
    and before any other ledger call or block. *)
Definition invalid_input_after_lookup (run : list Event * (Error + unit))
  : bool :=
  fails_with is_invalid_input (snd run)
  && only_cap_lookup (fst run)
  && no_transaction (fst run).

(** [address || (await signer.getAddress())], as a value. *)
Definition address_or_signer (address : option string) (w : Ledger)
  : string :=
  match js_truthy address with
  | Some a => a
  | None => signer_address w
  end.

(** The snapshot with only the first element of every query result. *)
Definition first_only (w : Ledger) : Ledger :=
  {| signer_address := signer_address w;
     objects := objects w;
     dynamicFields := dynamicFields w;
     transferPolicies := fun type => firstn 1 (transferPolicies w type);
     ownedKioskCaps := fun a => firstn 1 (ownedKioskCaps w a) |}.

(** ** A concrete ledger for the examples *)

Definition demo_valid (s : string) : bool := String.prefix "0x" s.

Definition demo_ruleKind (rule : string) : RuleKind :=
  if String.eqb rule "royalty_rule" then RoyaltyRule
  else if String.eqb rule "kiosk_lock_rule" then KioskLockRule
  else UnknownRule.

(** A [list] builder for the examples: it takes an amount written in
    decimal digits and throws on any other. *)
Definition is_digit (c : Ascii.ascii) : bool :=
  (48 <=? Ascii.nat_of_ascii c)%nat && (Ascii.nat_of_ascii c <=? 57)%nat.

Definition demo_list (txb : TransactionBlock) (itemType : string)
  (kiosk cap : TxArg) (itemId amount : string) : Error + TransactionBlock :=
  match amount with
  | EmptyString => inl (BuilderError "amount is not a u64")
  | _ =>
      if forallb is_digit (list_ascii_of_string amount)
      then inr (txb ++ [OpList itemType kiosk cap itemId amount])
      else inl (BuilderError "amount is not a u64")
  end.

Definition demoSdk : Sdk :=
  specSdk demo_valid demo_valid demo_ruleKind demo_list.

Definition demo_data (id : string) (owner : Owner) : SuiObjectData :=
  {| data_objectId := id; data_version := "1"; data_digest := "d";
     data_type := "0x2::nft::Nft"; data_owner := owner;
     data_value := "1000" |}.

Definition demo_object (id : string) (owner : Owner) : SuiObjectResponse :=
  {| resp_error := None; resp_data := Some (demo_data id owner) |}.

Definition demo_missing : SuiObjectResponse :=
  {| resp_error := Some "notExists"; resp_data := None |}.

Definition demo_policy (id : string) (rules : list string)
  : TransferPolicy :=
  {| policy_id := id; policy_type := "0x2::nft::Nft";
     policy_owner := Shared; policy_rules := rules;
     policy_balance := "0" |}.

Definition demo_cap (id kioskId : string) : KioskOwnerCap :=
  {| cap_objectId := id; cap_kioskId := kioskId; cap_version := "1";
     cap_digest := "c" |}.

(** Item [0x1], its dynamic-field wrapper [0xF1] and the kiosk [0xK1] that
    lists it; the caller is [0xA1].  The parameters are what the examples
    vary: the item's owner, the wrapper, the listing, the policies of the
    item's type and the caller's capabilities. *)
Definition demo_ledger (itemOwner : Owner) (wrapper listing : SuiObjectResponse)
  (policies : list TransferPolicy) (caps : list KioskOwnerCap) : Ledger :=
  {| signer_address := "0xA1";
     objects := fun id =>
       if String.eqb id "0x1" then demo_object "0x1" itemOwner
       else if String.eqb id "0xF1" then wrapper
       else if String.eqb id "0xK1" then demo_object "0xK1" Shared
       else demo_missing;
     dynamicFields := fun parent item =>
       if String.eqb parent "0xK1" && String.eqb item "0x1" then listing
       else demo_missing;
     transferPolicies := fun _ => policies;
     ownedKioskCaps := fun a =>
       if String.eqb a "0xA1" then caps else [] |}.

Definition demo_listed (policies : list TransferPolicy)
  (caps : list KioskOwnerCap) : Ledger :=
  demo_ledger (ObjectOwner "0xF1") (demo_object "0xF1" (ObjectOwner "0xK1"))
    (demo_object "0xL1" (ObjectOwner "0xK1")) policies caps.

Definition demo_opts (target kiosk : option string) : PurchaseOptions :=
  {| opt_target := target; opt_kiosk := kiosk; opt_env := None |}.

(** The item is in the kiosk but its listing field is gone. *)
Definition demo_unlisted (policies : list TransferPolicy)
  (caps : list KioskOwnerCap) : Ledger :=
  demo_ledger (ObjectOwner "0xF1") (demo_object "0xF1" (ObjectOwner "0xK1"))
    demo_missing policies caps.

(** The item sits in the caller's own inventory. *)
Definition demo_owned (policies : list TransferPolicy)
  (caps : list KioskOwnerCap) : Ledger :=
  demo_ledger (AddressOwner "0xA1") demo_missing demo_missing policies caps.

(** What a purchase of [0x1] on [demo_listed] holds before rule
    resolution. *)
Definition demo_ctx (policy : TransferPolicy) : PurchaseContext :=
  {| ctx_info := demo_data "0x1" (ObjectOwner "0xF1");
     ctx_kioskId := "0xK1";
     ctx_kiosk := demo_data "0xK1" Shared;
     ctx_policy := policy;
     ctx_listing := demo_data "0xL1" (ObjectOwner "0xK1") |}.

Definition demo_lookup : list Event :=
  [EvGetObject "0x1"; EvGetObject "0xF1"].

Definition demo_reads : list Event :=
  [EvGetObject "0x1"; EvGetObject "0xF1"; EvGetObject "0xK1";
   EvQueryTransferPolicy "0x2::nft::Nft";
   EvGetDynamicFieldObject "0xK1" "0x1"].

Definition demo_royalty : TransferPolicy :=
  demo_policy "0xP1" ["royalty_rule"].

Definition demo_royalty_lock : TransferPolicy :=
  demo_policy "0xP3" ["royalty_rule"; "kiosk_lock_rule"].

Definition demo_lock_royalty : TransferPolicy :=
  demo_policy "0xP2" ["kiosk_lock_rule"; "royalty_rule"].

(** ** The display code of [search], [policy] and [contents] *)

(** An event of [provider.queryEvents]: [parsedJson.id], [parsedJson.kiosk],
    [parsedJson.price] and [timestampMs].  The type of the timestamp and
    what [<] does on it are those of the provider's answer; [searchType]
    only compares two of them. *)
Record KioskEvent (Timestamp : Type) : Type := {
  ev_id : string;
  ev_kiosk : string;
  ev_price : string;
  ev_timestampMs : Timestamp
}.
Arguments ev_id {Timestamp}.
Arguments ev_kiosk {Timestamp}.
Arguments ev_price {Timestamp}.
Arguments ev_timestampMs {Timestamp}.

Section SearchType.
Context {Timestamp : Type}.
Variable before : Timestamp -> Timestamp -> bool.

(** [later.some((item) => itemId == item.parsedJson.id &&
    timestamp < item.timestampMs)] *)
Definition superseded (e : KioskEvent Timestamp)
  (later : list (KioskEvent Timestamp)) : bool :=
  existsb
    (fun item =>
       String.eqb (ev_id e) (ev_id item)
       && before (ev_timestampMs e) (ev_timestampMs item))
    later.

(** [searchType], lines 637-649: the listings left after the two filters. *)
Definition searchType_listings
  (listed delisted purchased : list (KioskEvent Timestamp))
  : list (KioskEvent Timestamp) :=
  filter (fun e => negb (superseded e purchased))
    (filter (fun e => negb (superseded e delisted)) listed).

End SearchType.

(** [s.split('::')]: the pieces between the occurrences of the separator,
    found from the left and not overlapping; a string without separator is
    its own single piece. *)
Fixpoint split_colons (s : string) : list string :=
  match s with
  | EmptyString => [EmptyString]
  | String c s' =>
      match s' with
      | String c' rest =>
          if Ascii.eqb c ":" && Ascii.eqb c' ":"
          then EmptyString :: split_colons rest
          else
            match split_colons s' with
            | piece :: pieces => String c piece :: pieces
            | [] => [String c EmptyString]
            end
      | EmptyString => [String c EmptyString]
      end
  end.

(** [pieces.join('::')] *)
Fixpoint join_colons (pieces : list string) : string :=
  match pieces with
  | [] => EmptyString
  | [piece] => piece
  | piece :: rest => piece ++ "::" ++ join_colons rest
  end.

(** [searchPolicy], line 677:
    [rule.split('::').slice(1).join('::')] *)
Definition rule_without_package (rule : string) : string :=
  join_colons (tl (split_colons rule)).

(** A character occurs in a string. *)
Fixpoint has_char (c : Ascii.ascii) (s : string) : bool :=
  match s with
  | EmptyString => false
  | String c' s' => Ascii.eqb c c' || has_char c s'
  end.

(** An item of [fetchKiosk(...).data.items], as [showKioskContents] reads
    it. *)
Record KioskListing : Type := {
  listing_price : string;
  listing_isExclusive : bool
}.

Record KioskItem : Type := {
  item_objectId : string;
  item_type : string;
  item_isLocked : bool;
  item_listing : option KioskListing
}.

(** The price column: [formatAmount(item.listing.price)] or ['N/A']. *)
Inductive PriceCell (Amount : Type) : Type :=
| PriceOf (amount : Amount)
| PriceNA.
Arguments PriceOf {Amount}.
Arguments PriceNA {Amount}.

(** A row of the table of [contents]. *)
Record ContentsRow (Amount : Type) : Type := {
  row_objectId : string;
  row_type : string;
  row_isLocked : bool;
  row_listed : bool;
  row_isPublic : bool;
  row_price : PriceCell Amount
}.
Arguments row_objectId {Amount}.
Arguments row_type {Amount}.
Arguments row_isLocked {Amount}.
Arguments row_listed {Amount}.
Arguments row_isPublic {Amount}.
Arguments row_price {Amount}.

(** [Array.prototype.sort(compare)]: the language requires the sort to be
    stable, which fixes its result for a comparator that orders by a key;
    this is the stable insertion sort. *)
Section ArraySort.
Context {A : Type}.
Variable compare : A -> A -> Z.

Fixpoint sort_insert (x : A) (sorted : list A) : list A :=
  match sorted with
  | [] => [x]
  | y :: rest =>
      if Z.leb (compare x y) 0 then x :: y :: rest
      else y :: sort_insert x rest
  end.

Fixpoint array_sort (l : list A) : list A :=
  match l with
  | [] => []
  | x :: rest => sort_insert x (array_sort rest)
  end.

End ArraySort.

Section ContentsTable.
Context {Amount : Type}.
Variable formatType : string -> string.
Variable formatAmount : string -> Amount.

(** The callback of [items.map], lines 301-308. *)
Definition contents_row (item : KioskItem) : ContentsRow Amount :=
  {| row_objectId := item_objectId item;
     row_type := formatType (item_type item);
     row_isLocked := item_isLocked item;
     row_listed := match item_listing item with
                   | Some _ => true
                   | None => false
                   end;
     row_isPublic := match item_listing item with
                     | Some l => negb (listing_isExclusive l)
                     | None => false
                     end;
     row_price := match item_listing item with
                  | Some l => PriceOf (formatAmount (listing_price l))
                  | None => PriceNA
                  end |}.

(** [a.listed - b.listed], the booleans read as numbers. *)
Definition by_listed (a b : ContentsRow Amount) : Z :=
  (Z.b2z (row_listed a) - Z.b2z (row_listed b))%Z.

(** [showKioskContents], lines 300-309: [tabledItems]. *)
Definition tabledItems (items : list KioskItem)
  : list (ContentsRow Amount) :=
  array_sort by_listed (map contents_row items).

End ContentsTable.

(** [!!item.listing] *)
Definition is_listed (item : KioskItem) : bool :=
  match item_listing item with
  | Some _ => true
  | None => false
  end.

(** ** Reading runs of every handler *)

(** A run submits at most once and does nothing after it: either its last
    step is a submission, the only one, of the one block the run created;
    or the run submitted nothing and created at most one block. *)
Definition submits_once_at_the_end (t : list Event) : bool :=
  match rev t with
  | EvSignAndExecute _ :: earlier =>
      forallb (fun e => negb (is_submit e)) earlier
      && Nat.eqb (length (filter is_new_txb earlier)) 1
  | _ =>
      forallb (fun e => negb (is_submit e)) t
      && Nat.leb (length (filter is_new_txb t)) 1
  end.

(** The calls of a run that went to the ledger, in order. *)
Definition ledger_calls (t : list Event) : list Event :=
  filter is_ledger_call t.

(** The events of the capability lookup and the second [getAddress] that
    open [place] and [lock]. *)
Definition lookup_prefix (w : Ledger) : list Event :=
  [EvGetAddress; EvGetOwnedKiosks (signer_address w); EvGetAddress].

(** *** More of the concrete ledger *)

Definition demo_mystery : TransferPolicy :=
  demo_policy "0xP4" ["mystery_rule"].

Definition demo_one_cap : list KioskOwnerCap := [demo_cap "0xC1" "0xK9"].

(** Events of one item: listed at 1, delisted at 3, listed again at 5. *)
Definition demo_event (id : string) (t : nat) : KioskEvent nat :=
  {| ev_id := id; ev_kiosk := "0xK1"; ev_price := "1000";
     ev_timestampMs := t |}.

Definition demo_items : list KioskItem :=
  [{| item_objectId := "0x1"; item_type := "0x2::nft::Nft";
      item_isLocked := false;
      item_listing := Some {| listing_price := "1000";
                              listing_isExclusive := false |} |};
   {| item_objectId := "0x2"; item_type := "0x2::nft::Nft";
      item_isLocked := true; item_listing := None |}].

(** ** Proof tools *)

(** Case analysis on whatever a run branches on next. *)
Ltac run_case :=
  match goal with
  | |- context [match ?x with _ => _ end] =>
      lazymatch x with
      | context [match _ with _ => _ end] => fail
      | _ => destruct x eqn:?
      end
  end.

(** Unfolds the monad and the primitive calls, here and in the context. *)
Ltac run_unfold :=
  cbv beta iota delta [bind ret throw lift catch_null or_else require_data
                  provider_getObject provider_getDynamicFieldObject
                  queryTransferPolicy getOwnedKiosks signer_getAddress
                  provider_getOwnedObjects fetchKiosk
                  new_TransactionBlock sendTx trace outcome] in *.

(** Equality of two runs up to the bracketing of their traces. *)
Ltac trace_eq :=
  run_unfold; simpl; repeat rewrite <- app_assoc; simpl; reflexivity.

Section Theory.
Context {sdk : Sdk}.

(** [purchaseItem] is its context phase followed by its assembly phase;
    the second check of [itemInfo], which only [purchaseItem] has, never
    fires. *)
Lemma purchaseItem_phases (itemId : string) (opts : PurchaseOptions)
  (w : Ledger) :
  purchaseItem itemId opts w =
  bind (purchaseItem_context itemId opts) (purchaseItem_assemble opts) w.
Proof.
  unfold purchaseItem, purchaseItem_context, purchaseItem_kioskId,
    purchaseItem_reads, purchaseItem_assemble, purchaseItem_destination,
    rule_resolution, findKioskCap.
  run_unfold.
  repeat (run_case; simpl in *; try reflexivity; try congruence).
Qed.

(** *** Responses *)

Lemma require_data_found (r : SuiObjectResponse) (d : SuiObjectData)
  (e : Error) (w : Ledger) :
  found r d -> require_data r e w = ([], inr d).
Proof.
  intros [He Hd]. unfold require_data. rewrite He, Hd. reflexivity.
Qed.

Lemma require_data_missing (r : SuiObjectResponse) (e : Error)
  (w : Ledger) :
  missing r -> require_data r e w = ([], inl e).
Proof.
  unfold missing, require_data.
  intros [He | Hd].
  - destruct (resp_error r); [reflexivity | congruence].
  - rewrite Hd. destruct (resp_error r); reflexivity.
Qed.

Lemma found_or_missing (r : SuiObjectResponse) :
  (exists d, found r d) \/ missing r.
Proof.
  unfold found, missing.
  destruct (resp_error r) as [err|], (resp_data r) as [d|].
  - right. left. discriminate.
  - right. now right.
  - left. now exists d.
  - right. now right.
Qed.

Lemma found_not_missing (r : SuiObjectResponse) (d : SuiObjectData) :
  found r d -> ~ missing r.
Proof.
  intros [He Hd] [Hm | Hm]; congruence.
Qed.

(** *** The kiosk id of a purchase *)

(** What lines 502-547 do once the inputs passed the checks. *)
Lemma purchaseItem_kioskId_checked (itemId : string)
  (opts : PurchaseOptions) (w : Ledger) :
  invalid_target (opt_target opts) = false ->
  invalid_kiosk (opt_kiosk opts) = false ->
  isValidSuiObjectId itemId = true ->
  purchaseItem_kioskId itemId opts w =
  bind (provider_getObject itemId)
    (fun itemInfo =>
       bind (require_data itemInfo
               (ItemNotFound itemId (resp_error itemInfo)))
         (fun info =>
            match data_owner info with
            | ObjectOwner itemKeyId =>
                match js_truthy (opt_kiosk opts) with
                | Some kioskId => ret (info, kioskId)
                | None =>
                    bind (provider_getObject itemKeyId)
                      (fun itemKey =>
                         bind (require_data itemKey
                                 (DynamicFieldKeyNotFound itemId
                                    (resp_error itemKey)))
                           (fun key =>
                              match data_owner key with
                              | ObjectOwner kioskId => ret (info, kioskId)
                              | _ =>
                                  throw
                                    (DynamicFieldKeyNotOwnedByObject itemId)
                              end))
                end
            | _ => throw (ItemNotOwnedByObject itemId)
            end)) w.
Proof.
  intros Ht Hk Hi. unfold purchaseItem_kioskId.
  rewrite Ht, Hk, Hi. reflexivity.
Qed.

Lemma falsy_kiosk_is_valid (kiosk : option string) :
  js_truthy kiosk = None -> invalid_kiosk kiosk = false.
Proof.
  unfold invalid_kiosk. now intros ->.
Qed.

(** A failure of the lookup is the failure of the purchase. *)
Lemma purchaseItem_kioskId_fails (itemId : string) (opts : PurchaseOptions)
  (w : Ledger) (t : list Event) (e : Error) :
  purchaseItem_kioskId itemId opts w = (t, inl e) ->
  purchaseItem itemId opts w = (t, inl e).
Proof.
  intros Hk. rewrite purchaseItem_phases.
  unfold purchaseItem_context, bind. now rewrite Hk.
Qed.

(** The lookup reads objects and nothing else. *)
Lemma purchaseItem_kioskId_reads_only (itemId : string)
  (opts : PurchaseOptions) (w : Ledger) :
  no_transaction (trace (purchaseItem_kioskId itemId opts) w) = true.
Proof.
  unfold purchaseItem_kioskId. run_unfold.
  repeat (run_case; simpl in *; try reflexivity).
Qed.

(** *** The joined reads *)

Lemma no_transaction_app (t1 t2 : list Event) :
  no_transaction (t1 ++ t2) = no_transaction t1 && no_transaction t2.
Proof.
  unfold no_transaction. apply forallb_app.
Qed.

(** Past the lookup, [purchaseItem] is its remaining two phases. *)
Lemma purchaseItem_after_lookup (itemId : string) (opts : PurchaseOptions)
  (w : Ledger) (t1 : list Event) (info : SuiObjectData) (kioskId : string) :
  purchaseItem_kioskId itemId opts w = (t1, inr (info, kioskId)) ->
  purchaseItem itemId opts w =
  (t1 ++ fst (bind (purchaseItem_reads itemId info kioskId)
                (purchaseItem_assemble opts) w),
   snd (bind (purchaseItem_reads itemId info kioskId)
          (purchaseItem_assemble opts) w)).
Proof.
  intros Hk. rewrite purchaseItem_phases.
  unfold purchaseItem_context.
  unfold bind at 1 2. rewrite Hk. simpl fst. simpl snd.
  unfold bind.
  destruct (purchaseItem_reads itemId info kioskId w) as [t2 [e | ctx]];
    simpl.
  - reflexivity.
  - destruct (purchaseItem_assemble opts ctx w) as [t3 r]. simpl.
    now rewrite app_assoc.
Qed.

(** The checks of lines 558-572, in their order. *)
Lemma purchaseItem_reads_unlisted (itemId : string) (info : SuiObjectData)
  (kioskId : string) (w : Ledger) :
  missing (dynamicFields w kioskId itemId) ->
  purchaseItem_reads itemId info kioskId w =
  (joined_reads itemId info kioskId, inl (ItemNotListed itemId kioskId)).
Proof.
  intros Hm. unfold purchaseItem_reads, bind, provider_getObject,
    queryTransferPolicy, provider_getDynamicFieldObject.
  now rewrite (require_data_missing _ _ _ Hm).
Qed.

Lemma purchaseItem_reads_no_kiosk (itemId : string) (info : SuiObjectData)
  (kioskId : string) (w : Ledger) (listing : SuiObjectData) :
  found (dynamicFields w kioskId itemId) listing ->
  missing (objects w kioskId) ->
  purchaseItem_reads itemId info kioskId w =
  (joined_reads itemId info kioskId, inl (KioskNotFound kioskId)).
Proof.
  intros Hl Hm. unfold purchaseItem_reads, bind, provider_getObject,
    queryTransferPolicy, provider_getDynamicFieldObject.
  rewrite (require_data_found _ _ _ _ Hl).
  now rewrite (require_data_missing _ _ _ Hm).
Qed.

Lemma purchaseItem_reads_found (itemId : string) (info : SuiObjectData)
  (kioskId : string) (w : Ledger) (listing kiosk : SuiObjectData) :
  found (dynamicFields w kioskId itemId) listing ->
  found (objects w kioskId) kiosk ->
  purchaseItem_reads itemId info kioskId w =
  (joined_reads itemId info kioskId,
   match transferPolicies w (data_type info) with
   | [] => inl (NoTransferPolicyForType (data_type info))
   | policy :: _ =>
       inr {| ctx_info := info; ctx_kioskId := kioskId;
              ctx_kiosk := kiosk; ctx_policy := policy;
              ctx_listing := listing |}
   end).
Proof.
  intros Hl Hf. unfold purchaseItem_reads, bind, provider_getObject,
    queryTransferPolicy, provider_getDynamicFieldObject.
  rewrite (require_data_found _ _ _ _ Hl).
  rewrite (require_data_found _ _ _ _ Hf).
  destruct (transferPolicies w (data_type info)); reflexivity.
Qed.

(** The joined reads are always the same three, on the resolved kiosk. *)
Lemma purchaseItem_reads_trace (itemId : string) (info : SuiObjectData)
  (kioskId : string) (w : Ledger) :
  trace (purchaseItem_reads itemId info kioskId) w =
  joined_reads itemId info kioskId.
Proof.
  unfold trace.
  destruct (found_or_missing (dynamicFields w kioskId itemId))
    as [[listing Hl] | Hl].
  - destruct (found_or_missing (objects w kioskId)) as [[kiosk Hf] | Hf].
    + now rewrite (purchaseItem_reads_found _ _ _ _ _ _ Hl Hf).
    + now rewrite (purchaseItem_reads_no_kiosk _ _ _ _ _ Hl Hf).
  - now rewrite (purchaseItem_reads_unlisted _ _ _ _ Hl).
Qed.

(** The kiosk id the lookup yields is the one the purchase reads the kiosk
    and the listing of. *)
Lemma purchaseItem_reads_resolved_kiosk (itemId : string)
  (opts : PurchaseOptions) (w : Ledger) (t1 : list Event)
  (info : SuiObjectData) (kioskId : string) :
  purchaseItem_kioskId itemId opts w = (t1, inr (info, kioskId)) ->
  exists t2,
    trace (purchaseItem itemId opts) w =
    t1 ++ joined_reads itemId info kioskId ++ t2.
Proof.
  intros Hk. unfold trace at 1.
  rewrite (purchaseItem_after_lookup _ _ _ _ _ _ Hk). simpl fst.
  pose proof (purchaseItem_reads_trace itemId info kioskId w) as Ht.
  unfold trace in Ht. unfold bind.
  destruct (purchaseItem_reads itemId info kioskId w) as [t [e | ctx]];
    simpl in Ht; subst t.
  - exists []. now rewrite app_nil_r.
  - destruct (purchaseItem_assemble opts ctx w) as [t3 r]. now exists t3.
Qed.

(** A purchase that fails in the joined reads stops there. *)
Lemma purchaseItem_reads_fail (itemId : string) (opts : PurchaseOptions)
  (w : Ledger) (t1 : list Event) (info : SuiObjectData) (kioskId : string)
  (e : Error) :
  purchaseItem_kioskId itemId opts w = (t1, inr (info, kioskId)) ->
  purchaseItem_reads itemId info kioskId w =
  (joined_reads itemId info kioskId, inl e) ->
  purchaseItem itemId opts w =
  (t1 ++ joined_reads itemId info kioskId, inl e) /\
  no_transaction (trace (purchaseItem itemId opts) w) = true.
Proof.
  intros Hk Hr.
  assert (Hp : purchaseItem itemId opts w =
               (t1 ++ joined_reads itemId info kioskId, inl e)).
  { rewrite (purchaseItem_after_lookup _ _ _ _ _ _ Hk).
    unfold bind. now rewrite Hr. }
  split; [exact Hp |].
  unfold trace. rewrite Hp. simpl fst. rewrite no_transaction_app.
  pose proof (purchaseItem_kioskId_reads_only itemId opts w) as Ht.
  unfold trace in Ht. rewrite Hk in Ht. simpl in Ht. now rewrite Ht.
Qed.

(** *** Assembly and submission *)

Lemma findKioskCap_found (w : Ledger) (kioskCap : KioskOwnerCap) :
  outcome (findKioskCap None) w = inr kioskCap ->
  findKioskCap None w =
  ([EvGetAddress; EvGetOwnedKiosks (signer_address w)], inr kioskCap).
Proof.
  unfold outcome, findKioskCap. run_unfold. simpl.
  destruct (isValidSuiAddress (signer_address w)); simpl;
    [| discriminate].
  destruct (ownedKioskCaps w (signer_address w)); simpl;
    [discriminate | now intros [= ->]].
Qed.

(** Past the joined reads, [purchaseItem] is its last phase. *)
Lemma purchaseItem_after_context (itemId : string) (opts : PurchaseOptions)
  (w : Ledger) (t1 : list Event) (ctx : PurchaseContext) :
  purchaseItem_context itemId opts w = (t1, inr ctx) ->
  purchaseItem itemId opts w =
  (t1 ++ fst (purchaseItem_assemble opts ctx w),
   snd (purchaseItem_assemble opts ctx w)).
Proof.
  intros Hc. rewrite purchaseItem_phases. unfold bind. rewrite Hc.
  now destruct (purchaseItem_assemble opts ctx w).
Qed.

(** The context phase submits nothing. *)
Lemma purchaseItem_context_submits_nothing (itemId : string)
  (opts : PurchaseOptions) (w : Ledger) :
  submitted (trace (purchaseItem_context itemId opts) w) = [].
Proof.
  unfold trace, purchaseItem_context, purchaseItem_kioskId,
    purchaseItem_reads.
  run_unfold.
  repeat (run_case; simpl in *; try reflexivity; try congruence).
Qed.

Lemma submitted_app (t1 t2 : list Event) :
  submitted (t1 ++ t2) = submitted t1 ++ submitted t2.
Proof.
  unfold submitted. apply flat_map_app.
Qed.

Lemma purchaseItem_assemble_locked (opts : PurchaseOptions)
  (ctx : PurchaseContext) (w : Ledger) (kioskCap : KioskOwnerCap)
  (txb : TransactionBlock) (item : TxArg) :
  outcome (findKioskCap None) w = inr kioskCap ->
  rule_resolution opts ctx kioskCap [] = inr (txb, item, false) ->
  purchaseItem_assemble opts ctx w =
  (assembly_prefix w ++ [EvSignAndExecute txb], inr tt).
Proof.
  intros Hcap Hres. unfold purchaseItem_assemble.
  unfold bind, catch_null, new_TransactionBlock, lift.
  rewrite (findKioskCap_found _ _ Hcap), Hres. reflexivity.
Qed.

Lemma purchaseItem_assemble_free (opts : PurchaseOptions)
  (ctx : PurchaseContext) (w : Ledger) (kioskCap : KioskOwnerCap)
  (txb : TransactionBlock) (item : TxArg) :
  outcome (findKioskCap None) w = inr kioskCap ->
  rule_resolution opts ctx kioskCap [] = inr (txb, item, true) ->
  purchaseItem_assemble opts ctx w =
  (assembly_prefix w
   ++ fst (purchaseItem_destination (opt_target opts)
             (data_type (ctx_info ctx)) kioskCap item txb w),
   snd (purchaseItem_destination (opt_target opts)
          (data_type (ctx_info ctx)) kioskCap item txb w)).
Proof.
  intros Hcap Hres. unfold purchaseItem_assemble.
  unfold bind, catch_null, new_TransactionBlock, lift.
  rewrite (findKioskCap_found _ _ Hcap), Hres. simpl.
  now destruct (purchaseItem_destination _ _ _ _ _ w).
Qed.

(** A purchase whose rule resolution keeps the item in custody submits the
    block exactly as rule resolution left it, once. *)
Lemma purchase_locked_run (w : Ledger) (itemId : string)
  (opts : PurchaseOptions) (t1 : list Event) (ctx : PurchaseContext)
  (kioskCap : KioskOwnerCap) (txb : TransactionBlock) (item : TxArg) :
  purchaseItem_context itemId opts w = (t1, inr ctx) ->
  outcome (findKioskCap None) w = inr kioskCap ->
  rule_resolution opts ctx kioskCap [] = inr (txb, item, false) ->
  purchaseItem itemId opts w =
  ((t1 ++ assembly_prefix w) ++ [EvSignAndExecute txb], inr tt) /\
  submitted (t1 ++ assembly_prefix w) = [].
Proof.
  intros Hc Hcap Hres.
  rewrite (purchaseItem_after_context _ _ _ _ _ Hc).
  rewrite (purchaseItem_assemble_locked _ _ _ _ _ _ Hcap Hres).
  split; [unfold assembly_prefix; trace_eq |].
  rewrite submitted_app.
  pose proof (purchaseItem_context_submits_nothing itemId opts w) as Hs.
  unfold trace in Hs. rewrite Hc in Hs. simpl in Hs. now rewrite Hs.
Qed.

(** The context of a purchase whose joined reads all answer. *)
Lemma purchaseItem_context_found (itemId : string) (opts : PurchaseOptions)
  (w : Ledger) (t1 : list Event) (info : SuiObjectData) (kioskId : string)
  (listing kiosk : SuiObjectData) (policy : TransferPolicy)
  (policies : list TransferPolicy) :
  purchaseItem_kioskId itemId opts w = (t1, inr (info, kioskId)) ->
  found (dynamicFields w kioskId itemId) listing ->
  found (objects w kioskId) kiosk ->
  transferPolicies w (data_type info) = policy :: policies ->
  purchaseItem_context itemId opts w =
  (t1 ++ joined_reads itemId info kioskId,
   inr {| ctx_info := info; ctx_kioskId := kioskId; ctx_kiosk := kiosk;
          ctx_policy := policy; ctx_listing := listing |}).
Proof.
  intros Hk Hl Hf Hp. unfold purchaseItem_context, bind. rewrite Hk.
  simpl fst. simpl snd.
  now rewrite (purchaseItem_reads_found _ _ _ _ _ _ Hl Hf), Hp.
Qed.

(** A purchase whose rule resolution throws ends there, with the error of
    rule resolution. *)
Lemma purchase_failed_resolution_run (w : Ledger) (itemId : string)
  (opts : PurchaseOptions) (t1 : list Event) (ctx : PurchaseContext)
  (kioskCap : KioskOwnerCap) (e : Error) :
  purchaseItem_context itemId opts w = (t1, inr ctx) ->
  outcome (findKioskCap None) w = inr kioskCap ->
  rule_resolution opts ctx kioskCap [] = inl e ->
  purchaseItem itemId opts w = (t1 ++ assembly_prefix w, inl e) /\
  submitted (t1 ++ assembly_prefix w) = [].
Proof.
  intros Hc Hcap Hres.
  pose proof (purchaseItem_context_submits_nothing itemId opts w) as Hs.
  unfold trace in Hs. rewrite Hc in Hs. simpl in Hs.
  split.
  - rewrite (purchaseItem_after_context _ _ _ _ _ Hc).
    unfold purchaseItem_assemble, bind, catch_null, new_TransactionBlock,
      lift.
    rewrite (findKioskCap_found _ _ Hcap), Hres. reflexivity.
  - now rewrite submitted_app, Hs.
Qed.

(** A purchase whose rule resolution lets the item go submits the resolved
    block with one more operation, once. *)
Lemma purchase_free_run (w : Ledger) (itemId : string)
  (opts : PurchaseOptions) (t1 : list Event) (ctx : PurchaseContext)
  (kioskCap : KioskOwnerCap) (txb : TransactionBlock) (item : TxArg) :
  purchaseItem_context itemId opts w = (t1, inr ctx) ->
  outcome (findKioskCap None) w = inr kioskCap ->
  rule_resolution opts ctx kioskCap [] = inr (txb, item, true) ->
  exists t final,
    purchaseItem itemId opts w =
    (t ++ [EvSignAndExecute (txb ++ [final])], inr tt) /\
    submitted t = [] /\
    is_destination final = true.
Proof.
  intros Hc Hcap Hres.
  pose proof (purchaseItem_context_submits_nothing itemId opts w) as Hs.
  unfold trace in Hs. rewrite Hc in Hs. simpl in Hs.
  rewrite (purchaseItem_after_context _ _ _ _ _ Hc).
  rewrite (purchaseItem_assemble_free _ _ _ _ _ _ Hcap Hres).
  unfold purchaseItem_destination, or_else, place, transferObjects.
  destruct (is_kiosk_target (opt_target opts)).
  - exists (t1 ++ assembly_prefix w). eexists.
    split; [trace_eq |].
    split; [rewrite submitted_app, Hs; reflexivity | reflexivity].
  - destruct (js_truthy (opt_target opts)) as [address |].
    + exists (t1 ++ assembly_prefix w). eexists.
      split; [trace_eq |].
      split; [rewrite submitted_app, Hs; reflexivity | reflexivity].
    + exists (t1 ++ assembly_prefix w ++ [EvGetAddress]). eexists.
      split; [trace_eq |].
      split; [rewrite submitted_app, Hs; reflexivity | reflexivity].
Qed.

End Theory.

Section TwoHopLookup.
Context {sdk : Sdk}.

(** C1, as amended.  A purchase without an explicit kiosk id (and with
    well-formed inputs) resolves the kiosk id by two object reads.  A
    missing item fails; an item owned by an address or shared fails;
    the owner reference of an object-owned item is fetched as the
    dynamic-field wrapper.  A missing wrapper fails; a wrapper owned by an
    address or shared fails; the owner id of an object-owned wrapper is the
    kiosk id, the one whose object and listing the purchase reads next.
    Each of the four failures carries the item id and no other: at the
    second hop the error describes the wrapper as the dynamic-field key of
    the item, and the wrapper's own id is not in it.  A failed lookup fails
    the purchase with the same error and without a transaction. *)
Theorem purchase_two_hop_lookup (w : Ledger) (itemId : string)
  (opts : PurchaseOptions) :
  js_truthy (opt_kiosk opts) = None ->
  invalid_target (opt_target opts) = false ->
  isValidSuiObjectId itemId = true ->
  (missing (objects w itemId) ->
   purchaseItem_kioskId itemId opts w =
   ([EvGetObject itemId],
    inl (ItemNotFound itemId (resp_error (objects w itemId)))) /\
   error_ids (ItemNotFound itemId (resp_error (objects w itemId))) =
   [itemId]) /\
  (forall info,
     found (objects w itemId) info ->
     (exists address, data_owner info = AddressOwner address) \/
     data_owner info = Shared ->
     purchaseItem_kioskId itemId opts w =
     ([EvGetObject itemId], inl (ItemNotOwnedByObject itemId)) /\
     error_ids (ItemNotOwnedByObject itemId) = [itemId]) /\
  (forall info itemKeyId,
     found (objects w itemId) info ->
     data_owner info = ObjectOwner itemKeyId ->
     (missing (objects w itemKeyId) ->
      purchaseItem_kioskId itemId opts w =
      ([EvGetObject itemId; EvGetObject itemKeyId],
       inl (DynamicFieldKeyNotFound itemId
              (resp_error (objects w itemKeyId)))) /\
      error_ids (DynamicFieldKeyNotFound itemId
                   (resp_error (objects w itemKeyId))) = [itemId]) /\
     (forall key,
        found (objects w itemKeyId) key ->
        (exists address, data_owner key = AddressOwner address) \/
        data_owner key = Shared ->
        purchaseItem_kioskId itemId opts w =
        ([EvGetObject itemId; EvGetObject itemKeyId],
         inl (DynamicFieldKeyNotOwnedByObject itemId)) /\
        error_ids (DynamicFieldKeyNotOwnedByObject itemId) = [itemId]) /\
     (forall key kioskId,
        found (objects w itemKeyId) key ->
        data_owner key = ObjectOwner kioskId ->
        purchaseItem_kioskId itemId opts w =
        ([EvGetObject itemId; EvGetObject itemKeyId],
         inr (info, kioskId)) /\
        exists t2,
          trace (purchaseItem itemId opts) w =
          [EvGetObject itemId; EvGetObject itemKeyId]
          ++ joined_reads itemId info kioskId ++ t2)) /\
  (forall t e,
     purchaseItem_kioskId itemId opts w = (t, inl e) ->
     purchaseItem itemId opts w = (t, inl e) /\
     no_transaction t = true).
Proof.
  intros Hk Ht Hi.
  pose proof (purchaseItem_kioskId_checked itemId opts w Ht
                (falsy_kiosk_is_valid _ Hk) Hi) as Heq.
  rewrite Hk in Heq. unfold bind, provider_getObject in Heq.
  split; [| split; [| split]].
  - intros Hm. split; [| reflexivity]. rewrite Heq.
    now rewrite (require_data_missing _ _ _ Hm).
  - intros info Hf Ho. split; [| reflexivity]. rewrite Heq.
    rewrite (require_data_found _ _ _ _ Hf).
    destruct Ho as [[address ->] | ->]; reflexivity.
  - intros info itemKeyId Hf Ho.
    rewrite (require_data_found _ _ _ _ Hf), Ho in Heq.
    split; [| split].
    + intros Hm. split; [| reflexivity]. rewrite Heq.
      now rewrite (require_data_missing _ _ _ Hm).
    + intros key Hfk Hok. split; [| reflexivity]. rewrite Heq.
      rewrite (require_data_found _ _ _ _ Hfk).
      destruct Hok as [[address ->] | ->]; reflexivity.
    + intros key kioskId Hfk Hok.
      assert (Hrun : purchaseItem_kioskId itemId opts w =
                     ([EvGetObject itemId; EvGetObject itemKeyId],
                      inr (info, kioskId))).
      { rewrite Heq, (require_data_found _ _ _ _ Hfk), Hok.
        reflexivity. }
      split; [exact Hrun |].
      exact (purchaseItem_reads_resolved_kiosk _ _ _ _ _ _ Hrun).
  - intros t e Hfail. split.
    + now apply purchaseItem_kioskId_fails.
    + pose proof (purchaseItem_kioskId_reads_only itemId opts w) as Hr.
      unfold trace in Hr. now rewrite Hfail in Hr.
Qed.

End TwoHopLookup.

(** C1 as stated fails at the second hop: the item [0x1] is owned by the
    wrapper [0xF1], which does not exist; the error names the item and the
    wrapper's id is nowhere in it. *)
Lemma missing_wrapper_error_names_item :
  purchaseItem (sdk := demoSdk) "0x1" (demo_opts None None)
    (demo_ledger (ObjectOwner "0xF1") demo_missing demo_missing [] []) =
  ([EvGetObject "0x1"; EvGetObject "0xF1"],
   inl (DynamicFieldKeyNotFound "0x1" (Some "notExists"))) /\
  ~ In "0xF1" (error_ids (DynamicFieldKeyNotFound "0x1" (Some "notExists"))).
Proof.
  split; [reflexivity |].
  simpl. intros [Heq | []]. discriminate Heq.
Qed.

(** The lookup on the demo ledger: [0x1] in wrapper [0xF1] in kiosk [0xK1]. *)
Lemma purchase_two_hop_lookup_witness :
  js_truthy (opt_kiosk (demo_opts None None)) = None /\
  invalid_target (sdk := demoSdk) (opt_target (demo_opts None None)) = false /\
  isValidSuiObjectId (Sdk := demoSdk) "0x1" = true /\
  exists info,
    purchaseItem_kioskId (sdk := demoSdk) "0x1" (demo_opts None None)
      (demo_listed [] []) =
    ([EvGetObject "0x1"; EvGetObject "0xF1"], inr (info, "0xK1")).
Proof.
  split; [reflexivity |]. split; [reflexivity |]. split; [reflexivity |].
  eexists.
  destruct (purchase_two_hop_lookup (sdk := demoSdk) (demo_listed [] [])
              "0x1" (demo_opts None None) eq_refl eq_refl eq_refl)
    as (_ & _ & Hhop & _).
  destruct (Hhop _ "0xF1" (conj eq_refl eq_refl) eq_refl) as (_ & _ & Hok).
  exact (proj1 (Hok _ "0xK1" (conj eq_refl eq_refl) eq_refl)).
Defined.

Section ExplicitKiosk.
Context {sdk : Sdk}.

(** C6, as amended.  With a well-formed explicit kiosk id the lookup reads
    the item and nothing else: the wrapper is never fetched and the kiosk
    id is the explicit one whatever the owner references say; it is the
    kiosk whose object and listing the purchase reads next.  The item
    itself is still fetched and must exist and be object-owned, or the
    purchase fails. *)
Theorem purchase_explicit_kiosk (w : Ledger) (itemId : string)
  (opts : PurchaseOptions) (kioskId : string) :
  js_truthy (opt_kiosk opts) = Some kioskId ->
  isValidSuiObjectId kioskId = true ->
  invalid_target (opt_target opts) = false ->
  isValidSuiObjectId itemId = true ->
  trace (purchaseItem_kioskId itemId opts) w = [EvGetObject itemId] /\
  (forall info itemKeyId,
     found (objects w itemId) info ->
     data_owner info = ObjectOwner itemKeyId ->
     outcome (purchaseItem_kioskId itemId opts) w = inr (info, kioskId) /\
     exists t2,
       trace (purchaseItem itemId opts) w =
       [EvGetObject itemId] ++ joined_reads itemId info kioskId ++ t2) /\
  (missing (objects w itemId) ->
   outcome (purchaseItem_kioskId itemId opts) w =
   inl (ItemNotFound itemId (resp_error (objects w itemId)))) /\
  (forall info,
     found (objects w itemId) info ->
     (forall id, data_owner info <> ObjectOwner id) ->
     outcome (purchaseItem_kioskId itemId opts) w =
     inl (ItemNotOwnedByObject itemId)) /\
  (forall e,
     outcome (purchaseItem_kioskId itemId opts) w = inl e ->
     purchaseItem itemId opts w = ([EvGetObject itemId], inl e)) /\
  (forall w',
     objects w' itemId = objects w itemId ->
     purchaseItem_kioskId itemId opts w' =
     purchaseItem_kioskId itemId opts w).
Proof.
  intros Hk Hv Ht Hi.
  assert (Hik : invalid_kiosk (opt_kiosk opts) = false).
  { unfold invalid_kiosk. now rewrite Hk, Hv. }
  assert (Heq : forall u,
             purchaseItem_kioskId itemId opts u =
             match require_data (objects u itemId)
                     (ItemNotFound itemId (resp_error (objects u itemId))) u
             with
             | (_, inl e) => ([EvGetObject itemId], inl e)
             | (_, inr info) =>
                 match data_owner info with
                 | ObjectOwner _ => ([EvGetObject itemId], inr (info, kioskId))
                 | _ => ([EvGetObject itemId],
                         inl (ItemNotOwnedByObject itemId))
                 end
             end).
  { intros u. rewrite (purchaseItem_kioskId_checked itemId opts u Ht Hik Hi).
    rewrite Hk. run_unfold. simpl.
    repeat (run_case; simpl in *; try congruence); reflexivity. }
  assert (Htrace : trace (purchaseItem_kioskId itemId opts) w =
                   [EvGetObject itemId]).
  { unfold trace. rewrite Heq.
    repeat (run_case; simpl; try reflexivity). }
  split; [exact Htrace |].
  split; [| split; [| split; [| split]]].
  - intros info itemKeyId Hf Ho.
    assert (Hrun : purchaseItem_kioskId itemId opts w =
                   ([EvGetObject itemId], inr (info, kioskId))).
    { now rewrite Heq, (require_data_found _ _ _ _ Hf), Ho. }
    split; [unfold outcome; now rewrite Hrun |].
    exact (purchaseItem_reads_resolved_kiosk _ _ _ _ _ _ Hrun).
  - intros Hm. unfold outcome.
    now rewrite Heq, (require_data_missing _ _ _ Hm).
  - intros info Hf Ho. unfold outcome.
    rewrite Heq, (require_data_found _ _ _ _ Hf).
    destruct (data_owner info) as [a | id |];
      [reflexivity | now elim (Ho id) | reflexivity].
  - intros e He. apply purchaseItem_kioskId_fails.
    unfold trace in Htrace. unfold outcome in He.
    destruct (purchaseItem_kioskId itemId opts w) as [t r].
    simpl in Htrace, He. now subst.
  - intros w' Hw. rewrite !Heq. unfold require_data. rewrite Hw.
    destruct (resp_error (objects w itemId)),
      (resp_data (objects w itemId)); reflexivity.
Qed.

End ExplicitKiosk.

(** C6 as stated fails: with the explicit kiosk id [0xK1] the item [0x1] is
    still fetched, and being owned by an address it fails the purchase on
    its owner shape. *)
Lemma explicit_kiosk_still_checks_owner :
  purchaseItem (sdk := demoSdk) "0x1" (demo_opts None (Some "0xK1"))
    (demo_ledger (AddressOwner "0xB0")
       (demo_object "0xF1" (ObjectOwner "0xK1"))
       (demo_object "0xL1" (ObjectOwner "0xK1")) [] []) =
  ([EvGetObject "0x1"], inl (ItemNotOwnedByObject "0x1")).
Proof. reflexivity. Qed.

(** The explicit kiosk id [0xK7] wins over the kiosk [0xK1] that holds the
    item. *)
Lemma purchase_explicit_kiosk_witness :
  js_truthy (opt_kiosk (demo_opts None (Some "0xK7"))) = Some "0xK7" /\
  isValidSuiObjectId (Sdk := demoSdk) "0xK7" = true /\
  invalid_target (sdk := demoSdk)
    (opt_target (demo_opts None (Some "0xK7"))) = false /\
  isValidSuiObjectId (Sdk := demoSdk) "0x1" = true /\
  trace (purchaseItem_kioskId (sdk := demoSdk) "0x1"
           (demo_opts None (Some "0xK7"))) (demo_listed [] []) =
  [EvGetObject "0x1"] /\
  exists info,
    outcome (purchaseItem_kioskId (sdk := demoSdk) "0x1"
               (demo_opts None (Some "0xK7"))) (demo_listed [] []) =
    inr (info, "0xK7").
Proof.
  split; [reflexivity |]. split; [reflexivity |]. split; [reflexivity |].
  split; [reflexivity |].
  destruct (purchase_explicit_kiosk (sdk := demoSdk) (demo_listed [] [])
              "0x1" (demo_opts None (Some "0xK7")) "0xK7"
              eq_refl eq_refl eq_refl eq_refl) as (Htrace & Hok & _).
  split; [exact Htrace |].
  eexists. exact (proj1 (Hok _ "0xF1" (conj eq_refl eq_refl) eq_refl)).
Defined.

Section JoinedReads.
Context {sdk : Sdk}.

(** C5.  When the listing field of the item does not exist in the resolved
    kiosk (the response has an error or no data), the purchase fails with
    the not-listed error right after the joined reads; no block is created
    and nothing is submitted. *)
Theorem purchase_unlisted_fails (w : Ledger) (itemId : string)
  (opts : PurchaseOptions) (t1 : list Event) (info : SuiObjectData)
  (kioskId : string) :
  purchaseItem_kioskId itemId opts w = (t1, inr (info, kioskId)) ->
  missing (dynamicFields w kioskId itemId) ->
  purchaseItem itemId opts w =
  (t1 ++ joined_reads itemId info kioskId,
   inl (ItemNotListed itemId kioskId)) /\
  no_transaction (trace (purchaseItem itemId opts) w) = true.
Proof.
  intros Hk Hm.
  apply (purchaseItem_reads_fail _ _ _ _ _ _ _ Hk).
  now apply purchaseItem_reads_unlisted.
Qed.

(** C4, as amended.  A purchase whose policy discovery returns the empty
    list fails after the joined reads, before a block is created, a rule
    resolved or anything submitted.  The error is that of the first check
    that fails, in the order of the source: the not-listed error when the
    listing is missing, the kiosk-not-found error when the listing is there
    and the kiosk is missing, and the no-policy error of the item's type
    only when both are there.  A lock whose policy discovery returns the
    empty list fails with the no-policy error of the item and its type, and
    builds and submits nothing. *)
Theorem no_policy_fails :
  (forall (w : Ledger) (itemId : string) (opts : PurchaseOptions)
          (t1 : list Event) (info : SuiObjectData) (kioskId : string),
     purchaseItem_kioskId itemId opts w = (t1, inr (info, kioskId)) ->
     transferPolicies w (data_type info) = [] ->
     (missing (dynamicFields w kioskId itemId) ->
      purchaseItem itemId opts w =
      (t1 ++ joined_reads itemId info kioskId,
       inl (ItemNotListed itemId kioskId))) /\
     (forall listing,
        found (dynamicFields w kioskId itemId) listing ->
        missing (objects w kioskId) ->
        purchaseItem itemId opts w =
        (t1 ++ joined_reads itemId info kioskId,
         inl (KioskNotFound kioskId))) /\
     (forall listing kiosk,
        found (dynamicFields w kioskId itemId) listing ->
        found (objects w kioskId) kiosk ->
        purchaseItem itemId opts w =
        (t1 ++ joined_reads itemId info kioskId,
         inl (NoTransferPolicyForType (data_type info)))) /\
     (exists e,
        purchaseItem itemId opts w =
        (t1 ++ joined_reads itemId info kioskId, inl e)) /\
     no_transaction (trace (purchaseItem itemId opts) w) = true) /\
  (forall (w : Ledger) (itemId type : string),
     In (EvQueryTransferPolicy type) (trace (lockItem itemId) w) ->
     transferPolicies w type = [] ->
     outcome (lockItem itemId) w =
     inl (ItemHasNoTransferPolicy itemId type) /\
     no_transaction (trace (lockItem itemId) w) = true).
Proof.
  split.
  - intros w itemId opts t1 info kioskId Hk Hp.
    assert (Hlist : missing (dynamicFields w kioskId itemId) ->
                    purchaseItem itemId opts w =
                    (t1 ++ joined_reads itemId info kioskId,
                     inl (ItemNotListed itemId kioskId)) /\
                    no_transaction (trace (purchaseItem itemId opts) w) =
                    true).
    { intros Hl.
      apply (purchaseItem_reads_fail _ _ _ _ _ _ _ Hk).
      now apply purchaseItem_reads_unlisted. }
    assert (Hkiosk : forall listing,
               found (dynamicFields w kioskId itemId) listing ->
               missing (objects w kioskId) ->
               purchaseItem itemId opts w =
               (t1 ++ joined_reads itemId info kioskId,
                inl (KioskNotFound kioskId)) /\
               no_transaction (trace (purchaseItem itemId opts) w) = true).
    { intros listing Hl Hf.
      apply (purchaseItem_reads_fail _ _ _ _ _ _ _ Hk).
      now apply (purchaseItem_reads_no_kiosk _ _ _ _ listing). }
    assert (Hpolicy : forall listing kiosk,
               found (dynamicFields w kioskId itemId) listing ->
               found (objects w kioskId) kiosk ->
               purchaseItem itemId opts w =
               (t1 ++ joined_reads itemId info kioskId,
                inl (NoTransferPolicyForType (data_type info))) /\
               no_transaction (trace (purchaseItem itemId opts) w) = true).
    { intros listing kiosk Hl Hf.
      apply (purchaseItem_reads_fail _ _ _ _ _ _ _ Hk).
      rewrite (purchaseItem_reads_found _ _ _ _ _ _ Hl Hf), Hp.
      reflexivity. }
    split; [intros Hl; exact (proj1 (Hlist Hl)) |].
    split; [intros listing Hl Hf; exact (proj1 (Hkiosk listing Hl Hf)) |].
    split; [intros listing kiosk Hl Hf;
            exact (proj1 (Hpolicy listing kiosk Hl Hf)) |].
    destruct (found_or_missing (dynamicFields w kioskId itemId))
      as [[listing Hl] | Hl].
    + destruct (found_or_missing (objects w kioskId)) as [[kiosk Hf] | Hf].
      * destruct (Hpolicy listing kiosk Hl Hf) as [Hrun Hno].
        split; [eexists; exact Hrun | exact Hno].
      * destruct (Hkiosk listing Hl Hf) as [Hrun Hno].
        split; [eexists; exact Hrun | exact Hno].
    + destruct (Hlist Hl) as [Hrun Hno].
      split; [eexists; exact Hrun | exact Hno].
  - intros w itemId type. unfold trace, outcome, lockItem, findKioskCap.
    run_unfold. simpl.
    repeat (run_case; simpl in *; try congruence);
      intros Hin Hp; repeat (destruct Hin as [Hin | Hin]; try discriminate);
      try contradiction; try injection Hin as <-; try congruence;
      split; reflexivity.
Qed.

End JoinedReads.

(** The item is in kiosk [0xK1] and its listing is gone. *)
Lemma purchase_unlisted_fails_witness :
  purchaseItem_kioskId (sdk := demoSdk) "0x1" (demo_opts None None)
    (demo_unlisted [demo_royalty] []) =
  (demo_lookup, inr (demo_data "0x1" (ObjectOwner "0xF1"), "0xK1")) /\
  missing (dynamicFields (demo_unlisted [demo_royalty] []) "0xK1" "0x1") /\
  purchaseItem (sdk := demoSdk) "0x1" (demo_opts None None)
    (demo_unlisted [demo_royalty] []) =
  (demo_reads, inl (ItemNotListed "0x1" "0xK1")).
Proof.
  assert (Hm : missing
                 (dynamicFields (demo_unlisted [demo_royalty] []) "0xK1"
                    "0x1")).
  { left. discriminate. }
  split; [reflexivity |]. split; [exact Hm |].
  exact (proj1 (purchase_unlisted_fails (sdk := demoSdk)
                  (demo_unlisted [demo_royalty] []) "0x1"
                  (demo_opts None None) demo_lookup
                  (demo_data "0x1" (ObjectOwner "0xF1")) "0xK1"
                  eq_refl Hm)).
Defined.

(** C4 as stated fails for an item whose listing is gone: the type of
    [0x1] has no policy, and the purchase fails with the not-listed error,
    not with the no-policy error. *)
Lemma unlisted_purchase_is_not_a_policy_error :
  transferPolicies (demo_unlisted [] []) "0x2::nft::Nft" = [] /\
  purchaseItem (sdk := demoSdk) "0x1" (demo_opts None None)
    (demo_unlisted [] []) =
  (demo_reads, inl (ItemNotListed "0x1" "0xK1")).
Proof. split; reflexivity. Qed.

(** No policy for the type of [0x1]: the purchase of the listed item and
    the lock of the owned item. *)
Lemma no_policy_fails_witness :
  purchaseItem_kioskId (sdk := demoSdk) "0x1" (demo_opts None None)
    (demo_listed [] []) =
  (demo_lookup, inr (demo_data "0x1" (ObjectOwner "0xF1"), "0xK1")) /\
  transferPolicies (demo_listed [] []) "0x2::nft::Nft" = [] /\
  purchaseItem (sdk := demoSdk) "0x1" (demo_opts None None)
    (demo_listed [] []) =
  (demo_lookup
   ++ joined_reads "0x1" (demo_data "0x1" (ObjectOwner "0xF1")) "0xK1",
   inl (NoTransferPolicyForType "0x2::nft::Nft")) /\
  In (EvQueryTransferPolicy "0x2::nft::Nft")
    (trace (lockItem (sdk := demoSdk) "0x1")
       (demo_owned [] [demo_cap "0xC1" "0xK9"])) /\
  outcome (lockItem (sdk := demoSdk) "0x1")
    (demo_owned [] [demo_cap "0xC1" "0xK9"]) =
  inl (ItemHasNoTransferPolicy "0x1" "0x2::nft::Nft").
Proof.
  assert (Hq : In (EvQueryTransferPolicy "0x2::nft::Nft")
                 (trace (lockItem (sdk := demoSdk) "0x1")
                    (demo_owned [] [demo_cap "0xC1" "0xK9"]))).
  { simpl. tauto. }
  split; [reflexivity |]. split; [reflexivity |].
  split; [| split].
  - destruct (proj1 (no_policy_fails (sdk := demoSdk))
                (demo_listed [] []) "0x1" (demo_opts None None)
                demo_lookup (demo_data "0x1" (ObjectOwner "0xF1"))
                "0xK1" eq_refl eq_refl) as (_ & _ & Hpolicy & _).
    exact (Hpolicy (demo_data "0xL1" (ObjectOwner "0xK1"))
             (demo_data "0xK1" Shared) (conj eq_refl eq_refl)
             (conj eq_refl eq_refl)).
  - exact Hq.
  - exact (proj1 (proj2 (no_policy_fails (sdk := demoSdk))
                    (demo_owned [] [demo_cap "0xC1" "0xK9"]) "0x1"
                    "0x2::nft::Nft" Hq eq_refl)).
Defined.

Section Assembly.
Context {sdk : Sdk}.

(** C3.  When rule resolution yields [canTransfer = true], the purchase
    submits one block: the block rule resolution left, with exactly one
    operation appended.  That operation places the item into the caller's
    own kiosk when the target is ["kiosk"]; otherwise it transfers the item
    to the target address, and to the caller's own address when the target
    is omitted (or empty). *)
Theorem purchase_destination (w : Ledger) (itemId : string)
  (opts : PurchaseOptions) (t1 : list Event) (ctx : PurchaseContext)
  (kioskCap : KioskOwnerCap) (txb : TransactionBlock) (item : TxArg) :
  purchaseItem_context itemId opts w = (t1, inr ctx) ->
  outcome (findKioskCap None) w = inr kioskCap ->
  rule_resolution opts ctx kioskCap [] = inr (txb, item, true) ->
  exists t final,
    purchaseItem itemId opts w =
    (t ++ [EvSignAndExecute (txb ++ [final])], inr tt) /\
    submitted t = [] /\
    (opt_target opts = Some "kiosk" ->
     final = OpPlace (data_type (ctx_info ctx))
               (ArgId (cap_kioskId kioskCap))
               (ArgId (cap_objectId kioskCap)) item) /\
    (forall address,
       js_truthy (opt_target opts) = Some address ->
       address <> "kiosk" ->
       final = OpTransferObjects [item] (ArgPure address "address")) /\
    (js_truthy (opt_target opts) = None ->
     final = OpTransferObjects [item]
               (ArgPure (signer_address w) "address")).
Proof.
  intros Hc Hcap Hres.
  pose proof (purchaseItem_context_submits_nothing itemId opts w) as Hs.
  unfold trace in Hs. rewrite Hc in Hs. simpl in Hs.
  rewrite (purchaseItem_after_context _ _ _ _ _ Hc).
  rewrite (purchaseItem_assemble_free _ _ _ _ _ _ Hcap Hres).
  unfold purchaseItem_destination, or_else, place, transferObjects.
  destruct (opt_target opts) as [target |] eqn:Ht; simpl.
  - destruct (String.eqb_spec target "kiosk") as [-> | Hneq].
    + exists (t1 ++ assembly_prefix w). eexists.
      split; [trace_eq |].
      split; [rewrite submitted_app, Hs; reflexivity |].
      split; [reflexivity |].
      split; [| discriminate].
      intros address [= <-] Hne. now elim Hne.
    + destruct (String.eqb_spec target "") as [-> | Hne].
      * exists (t1 ++ assembly_prefix w ++ [EvGetAddress]). eexists.
        split; [trace_eq |].
        split; [rewrite submitted_app, Hs; reflexivity |].
        split; [discriminate |].
        split; [discriminate | reflexivity].
      * exists (t1 ++ assembly_prefix w). eexists.
        split; [trace_eq |].
        split; [rewrite submitted_app, Hs; reflexivity |].
        split; [intros [= ->]; now elim Hneq |].
        split; [| discriminate].
        now intros address [= <-] _.
  - exists (t1 ++ assembly_prefix w ++ [EvGetAddress]). eexists.
    split; [trace_eq |].
    split; [rewrite submitted_app, Hs; reflexivity |].
    split; [discriminate |].
    split; [discriminate | reflexivity].
Qed.

End Assembly.

(** A royalty-only policy and no target: the item goes to the caller. *)
Lemma purchase_destination_witness :
  purchaseItem_context (sdk := demoSdk) "0x1" (demo_opts None None)
    (demo_listed [demo_royalty] [demo_cap "0xC1" "0xK9"]) =
  (demo_reads, inr (demo_ctx demo_royalty)) /\
  outcome (findKioskCap (sdk := demoSdk) None)
    (demo_listed [demo_royalty] [demo_cap "0xC1" "0xK9"]) =
  inr (demo_cap "0xC1" "0xK9") /\
  rule_resolution (sdk := demoSdk) (demo_opts None None)
    (demo_ctx demo_royalty) (demo_cap "0xC1" "0xK9") [] =
  inr ([OpPay "1000" "0x2::nft::Nft" (ArgObject "0xK1") "0x1";
        OpConfirmRoyalty "0xP1" testnetEnvironment], ArgResult 0, true) /\
  exists t,
    purchaseItem (sdk := demoSdk) "0x1" (demo_opts None None)
      (demo_listed [demo_royalty] [demo_cap "0xC1" "0xK9"]) =
    (t ++ [EvSignAndExecute
             ([OpPay "1000" "0x2::nft::Nft" (ArgObject "0xK1") "0x1";
               OpConfirmRoyalty "0xP1" testnetEnvironment]
              ++ [OpTransferObjects [ArgResult 0]
                    (ArgPure "0xA1" "address")])],
     inr tt).
Proof.
  split; [reflexivity |]. split; [reflexivity |]. split; [reflexivity |].
  destruct (purchase_destination (sdk := demoSdk)
              (demo_listed [demo_royalty] [demo_cap "0xC1" "0xK9"]) "0x1"
              (demo_opts None None) demo_reads (demo_ctx demo_royalty)
              (demo_cap "0xC1" "0xK9") _ (ArgResult 0)
              eq_refl eq_refl eq_refl)
    as (t & final & Hrun & _ & _ & _ & Hdefault).
  exists t. rewrite (Hdefault eq_refl) in Hrun. exact Hrun.
Defined.

Section LockedPurchase.
Variable ruleKind : string -> RuleKind.



End LockedPurchase.

Section LockedSubmission.
Context {sdk : Sdk}.


End LockedSubmission.



Section Guards.
Context {sdk : Sdk}.

Ltac no_cap w Hcaps :=
  unfold findKioskCap; run_unfold; simpl;
  destruct (isValidSuiAddress (signer_address w)); simpl;
  rewrite ?Hcaps; simpl;
  repeat (run_case; simpl in *; try reflexivity; try congruence);
  try reflexivity.

(** C7, as amended.  A caller who holds no KioskOwnerCap never gets a
    transaction submitted by a mutating command.  For [place], [lock],
    [list], [delist] and [withdraw] the no-kiosk error is the first check:
    the capability lookup is the only ledger call and no block is created.
    For [take] the receiver address and the item id are checked between
    the lookup and the no-kiosk check, so the no-kiosk error is reported
    for well-formed inputs, still with the lookup as the only ledger call.
    For [purchase] the capability is looked up only after the resolution
    reads and after the empty block is created: a purchase that got that
    far fails there with the no-kiosk error, before rule resolution and
    submission. *)
Theorem no_capability_fails (w : Ledger) :
  ownedKioskCaps w (signer_address w) = [] ->
  (forall itemId, no_kiosk_first (placeItem itemId w) = true) /\
  (forall itemId, no_kiosk_first (lockItem itemId w) = true) /\
  (forall itemId amount, no_kiosk_first (listItem itemId amount w) = true) /\
  (forall itemId, no_kiosk_first (delistItem itemId w) = true) /\
  no_kiosk_first (withdrawAll w) = true /\
  (forall itemId address,
     (isValidSuiAddress (address_or_signer address w) = true ->
      isValidSuiObjectId itemId = true ->
      no_kiosk_first (takeItem itemId address w) = true) /\
     (no_kiosk_first (takeItem itemId address w)
      || invalid_input_after_lookup (takeItem itemId address w) = true)) /\
  (forall itemId opts,
     submitted (trace (purchaseItem itemId opts) w) = [] /\
     (exists e, outcome (purchaseItem itemId opts) w = inl e) /\
     (forall t1 ctx,
        purchaseItem_context itemId opts w = (t1, inr ctx) ->
        exists t2,
          purchaseItem itemId opts w =
          (t1 ++ EvNewTransactionBlock :: EvGetAddress :: t2,
           inl NoKioskForSenderCannotPlace) /\
          only_cap_lookup t2 = true)).
Proof.
  intros Hcaps.
  split; [| split; [| split; [| split; [| split; [| split]]]]].
  - intros itemId. unfold no_kiosk_first, placeItem. no_cap w Hcaps.
  - intros itemId. unfold no_kiosk_first, lockItem. no_cap w Hcaps.
  - intros itemId amount. unfold no_kiosk_first, listItem. no_cap w Hcaps.
  - intros itemId. unfold no_kiosk_first, delistItem. no_cap w Hcaps.
  - unfold no_kiosk_first, withdrawAll, findKioskCap, or_else, js_truthy.
    run_unfold. simpl.
    destruct (String.eqb (signer_address w) ""); simpl;
      destruct (isValidSuiAddress (signer_address w)); simpl;
      rewrite ?Hcaps; reflexivity.
  - intros itemId address. split.
    + unfold address_or_signer. intros Hv Hi.
      unfold no_kiosk_first, takeItem, findKioskCap, or_else.
      destruct (js_truthy address) as [a |]; simpl js_truthy; cbv iota;
        run_unfold; simpl; rewrite ?Hv, ?Hi; simpl;
        destruct (isValidSuiAddress (signer_address w)); simpl;
        rewrite ?Hcaps; simpl; rewrite ?Hv, ?Hi; reflexivity.
    + unfold no_kiosk_first, invalid_input_after_lookup, takeItem,
        findKioskCap, or_else.
      destruct (js_truthy address) as [a |]; simpl js_truthy; cbv iota;
        no_cap w Hcaps.
  - intros itemId opts.
    assert (Hasm : forall ctx, exists t2,
               purchaseItem_assemble opts ctx w =
               (EvNewTransactionBlock :: EvGetAddress :: t2,
                inl NoKioskForSenderCannotPlace) /\
               only_cap_lookup t2 = true).
    { intros ctx. unfold purchaseItem_assemble, findKioskCap.
      run_unfold. simpl.
      destruct (isValidSuiAddress (signer_address w)); simpl.
      - rewrite Hcaps. simpl. now eexists.
      - now eexists. }
    pose proof (purchaseItem_context_submits_nothing itemId opts w) as Hs.
    unfold trace, outcome in *. rewrite purchaseItem_phases.
    unfold bind.
    destruct (purchaseItem_context itemId opts w) as [t1 [e | ctx]];
      simpl in *.
    + split; [exact Hs |]. split; [now exists e |]. discriminate.
    + destruct (Hasm ctx) as (t2 & -> & Hlook). simpl.
      split.
      * rewrite submitted_app, Hs. simpl.
        clear - Hlook. induction t2 as [| ev t2 IH]; [reflexivity |].
        simpl in *. apply andb_true_iff in Hlook as [Hev Hlook].
        destruct ev; simpl in *; try discriminate; now apply IH.
      * split; [now eexists |].
        intros t1' ctx' [= <- <-]. now exists t2.
Qed.

End Guards.

(** C7 as stated fails for [purchase]: the caller [0xA1] holds no
    capability, and the purchase of the listed item [0x1] makes five ledger
    reads and creates the block before it looks the capability up and
    fails. *)
Lemma purchase_checks_capability_last :
  purchaseItem (sdk := demoSdk) "0x1" (demo_opts None None)
    (demo_listed [demo_royalty] []) =
  (demo_reads
   ++ [EvNewTransactionBlock; EvGetAddress; EvGetOwnedKiosks "0xA1"],
   inl NoKioskForSenderCannotPlace) /\
  no_kiosk_first
    (purchaseItem (sdk := demoSdk) "0x1" (demo_opts None None)
       (demo_listed [demo_royalty] [])) = false.
Proof. split; reflexivity. Qed.

(** The caller [0xA1] without capability places and withdraws. *)
Lemma no_capability_fails_witness :
  ownedKioskCaps (demo_owned [demo_royalty] [])
    (signer_address (demo_owned [demo_royalty] [])) = [] /\
  no_kiosk_first
    (placeItem (sdk := demoSdk) "0x1" (demo_owned [demo_royalty] [])) =
  true /\
  no_kiosk_first (withdrawAll (sdk := demoSdk) (demo_owned [demo_royalty] []))
  = true.
Proof.
  split; [reflexivity |].
  destruct (no_capability_fails (sdk := demoSdk)
              (demo_owned [demo_royalty] []) eq_refl)
    as (Hplace & _ & _ & _ & Hwithdraw & _).
  split; [exact (Hplace "0x1") | exact Hwithdraw].
Defined.

Section InputChecks.
Context {sdk : Sdk}.



End InputChecks.



Section FirstResult.
Context {sdk : Sdk}.

Ltac first_only_case :=
  first
    [ match goal with
      | |- context [firstn 1 ?l] => destruct l eqn:?
      end
    | run_case ].

Ltac first_only_eq :=
  unfold first_only, findKioskCap; run_unfold; simpl;
  repeat (first_only_case; simpl in *; try reflexivity; try congruence);
  try reflexivity.

(** C9.  [findKioskCap] returns the first capability of the query result,
    whatever follows it, and the handlers use that one: for a caller whose
    capabilities are [kioskCap :: caps], [withdraw], [place], [take],
    [list] and [delist] build their operation on the kiosk of [kioskCap]
    with [kioskCap]; [lock] of an item whose type has the policies
    [policy :: policies] submits the lock with the id of [policy], into the
    kiosk of [kioskCap]; [purchase] hands [policy] and the kiosk and id of
    [kioskCap] to rule resolution, fails with its error and submits the
    block it leaves.  Nothing but the first element is ever
    read: the run of every handler on a ledger is its run on the ledger
    with every query result cut down to its first element, so a second
    capability or policy is never an error and never changes what is
    selected. *)
Theorem first_result_wins (w : Ledger) :
  (forall address kioskCap rest,
     isValidSuiAddress (address_or_signer address w) = true ->
     ownedKioskCaps w (address_or_signer address w) = kioskCap :: rest ->
     outcome (findKioskCap address) w = inr kioskCap) /\
  (forall kioskCap caps,
     isValidSuiAddress (signer_address w) = true ->
     ownedKioskCaps w (signer_address w) = kioskCap :: caps ->
     submitted (trace withdrawAll w) =
     [[OpWithdraw (ArgObject (cap_kioskId kioskCap)) (objectRef_cap kioskCap)
         None;
       OpTransferObjects [ArgResult 0]
         (ArgPure (signer_address w) "address")]] /\
     (forall itemId data policy policies,
        isValidSuiObjectId itemId = true ->
        found (objects w itemId) data ->
        data_owner data = AddressOwner (signer_address w) ->
        transferPolicies w (data_type data) = policy :: policies ->
        submitted (trace (lockItem itemId) w) =
        [[OpLock (data_type data) (ArgObject (cap_kioskId kioskCap))
            (objectRef_cap kioskCap) (ArgObject (policy_id policy))
            (objectRef_data data)]]) /\
     (forall itemId data,
        isValidSuiObjectId itemId = true ->
        found (objects w itemId) data ->
        (data_owner data = AddressOwner (signer_address w) ->
         submitted (trace (placeItem itemId) w) =
         [[OpPlace (data_type data) (ArgObject (cap_kioskId kioskCap))
             (objectRef_cap kioskCap) (objectRef_data data)]]) /\
        submitted (trace (takeItem itemId None) w) =
        [[OpTake (data_type data) (ArgObject (cap_kioskId kioskCap))
            (objectRef_cap kioskCap) itemId;
          OpTransferObjects [ArgResult 0]
            (ArgPure (signer_address w) "address")]] /\
        submitted (trace (delistItem itemId) w) =
        [[OpDelist (data_type data) (ArgObject (cap_kioskId kioskCap))
            (objectRef_cap kioskCap) itemId]] /\
        (forall amount txb,
           list_ [] (data_type data) (ArgObject (cap_kioskId kioskCap))
             (objectRef_cap kioskCap) itemId amount = inr txb ->
           submitted (trace (listItem itemId amount) w) = [txb])) /\
     (forall itemId opts t1 info kioskId listing kiosk policy policies,
        purchaseItem_kioskId itemId opts w = (t1, inr (info, kioskId)) ->
        found (dynamicFields w kioskId itemId) listing ->
        found (objects w kioskId) kiosk ->
        transferPolicies w (data_type info) = policy :: policies ->
        (forall e,
           purchaseAndResolvePolicies [] (data_type info)
             (data_value listing) (ArgObject (data_objectId kiosk))
             (data_objectId info) policy (envOption_of (opt_env opts))
             (cap_kioskId kioskCap, cap_objectId kioskCap) = inl e ->
           outcome (purchaseItem itemId opts) w = inl e /\
           submitted (trace (purchaseItem itemId opts) w) = []) /\
        (forall txb item,
           purchaseAndResolvePolicies [] (data_type info)
             (data_value listing) (ArgObject (data_objectId kiosk))
             (data_objectId info) policy (envOption_of (opt_env opts))
             (cap_kioskId kioskCap, cap_objectId kioskCap) =
           inr (txb, item, false) ->
           submitted (trace (purchaseItem itemId opts) w) = [txb]) /\
        (forall txb item,
           purchaseAndResolvePolicies [] (data_type info)
             (data_value listing) (ArgObject (data_objectId kiosk))
             (data_objectId info) policy (envOption_of (opt_env opts))
             (cap_kioskId kioskCap, cap_objectId kioskCap) =
           inr (txb, item, true) ->
           exists final,
             submitted (trace (purchaseItem itemId opts) w) =
             [txb ++ [final]] /\
             is_destination final = true))) /\
  (forall itemId opts,
     purchaseItem itemId opts w = purchaseItem itemId opts (first_only w)) /\
  (forall itemId, lockItem itemId w = lockItem itemId (first_only w)) /\
  (forall itemId, placeItem itemId w = placeItem itemId (first_only w)) /\
  (forall itemId address,
     takeItem itemId address w = takeItem itemId address (first_only w)) /\
  (forall itemId amount,
     listItem itemId amount w = listItem itemId amount (first_only w)) /\
  (forall itemId, delistItem itemId w = delistItem itemId (first_only w)) /\
  withdrawAll w = withdrawAll (first_only w) /\
  newKiosk w = newKiosk (first_only w).
Proof.
  split; [| split; [| split; [| split; [| split; [| split; [| split;
    [| split; [| split]]]]]]]].
  - intros address kioskCap rest. unfold address_or_signer.
    unfold outcome, findKioskCap, or_else.
    destruct (js_truthy address) as [a |]; run_unfold; simpl;
      intros Hv Hc; rewrite Hv; simpl; rewrite Hc; reflexivity.
  - intros kioskCap caps Hv Hcaps.
    assert (Hcap : outcome (findKioskCap None) w = inr kioskCap).
    { unfold outcome, findKioskCap. run_unfold. simpl.
      rewrite Hv. simpl. now rewrite Hcaps. }
    split; [| split; [| split]].
    + unfold trace, withdrawAll, findKioskCap, or_else, js_truthy.
      run_unfold. simpl.
      destruct (String.eqb (signer_address w) ""); simpl;
        rewrite Hv; simpl; rewrite Hcaps; reflexivity.
    + intros itemId data policy policies Hid Hf Ho Hp.
      unfold trace, lockItem.
      unfold bind at 1. unfold catch_null.
      rewrite (findKioskCap_found w _ Hcap).
      unfold bind at 1. unfold signer_getAddress at 1. cbv iota beta.
      rewrite Hid.
      unfold bind, provider_getObject, queryTransferPolicy. simpl.
      rewrite (require_data_found _ _ _ _ Hf), Ho. simpl.
      rewrite String.eqb_refl. simpl. rewrite Hp. reflexivity.
    + intros itemId data Hid Hf.
      split; [| split; [| split]].
      * intros Ho. unfold trace, placeItem.
        unfold bind at 1. unfold catch_null.
        rewrite (findKioskCap_found w _ Hcap).
        unfold bind at 1. unfold signer_getAddress at 1. cbv iota beta.
        rewrite Hid.
        unfold bind, provider_getObject. simpl.
        rewrite (require_data_found _ _ _ _ Hf), Ho. simpl.
        now rewrite String.eqb_refl.
      * unfold trace, takeItem.
        unfold bind at 1. unfold catch_null.
        rewrite (findKioskCap_found w _ Hcap).
        unfold or_else, js_truthy.
        unfold bind at 1. unfold signer_getAddress at 1. cbv iota beta.
        rewrite Hv, Hid.
        unfold bind, provider_getObject. simpl.
        now rewrite (require_data_found _ _ _ _ Hf).
      * unfold trace, delistItem, bind, catch_null.
        rewrite (findKioskCap_found w _ Hcap), Hid.
        unfold provider_getObject. simpl.
        now rewrite (require_data_found _ _ _ _ Hf).
      * intros amount txb Hb.
        unfold trace, listItem, bind, catch_null, lift.
        rewrite (findKioskCap_found w _ Hcap), Hid.
        unfold provider_getObject. simpl.
        rewrite (require_data_found _ _ _ _ Hf). simpl.
        now rewrite Hb.
    + intros itemId opts t1 info kioskId listing kiosk policy policies
        Hk Hl Hf Hp.
      pose proof (purchaseItem_context_found _ _ _ _ _ _ _ _ _ _
                    Hk Hl Hf Hp) as Hc.
      split; [| split].
      * intros e Hres.
        destruct (purchase_failed_resolution_run w itemId opts _ _ kioskCap
                    e Hc Hcap Hres) as [Hrun Hs].
        unfold outcome, trace. rewrite Hrun. now split.
      * intros txb item Hres.
        destruct (purchase_locked_run w itemId opts _ _ kioskCap txb item
                    Hc Hcap Hres) as [Hrun Hs].
        unfold trace. rewrite Hrun. simpl fst.
        now rewrite submitted_app, Hs.
      * intros txb item Hres.
        destruct (purchase_free_run w itemId opts _ _ kioskCap txb item
                    Hc Hcap Hres) as (t & final & Hrun & Hs & Hd).
        exists final. unfold trace. rewrite Hrun. simpl fst.
        now rewrite submitted_app, Hs.
  - intros itemId opts. unfold purchaseItem, purchaseItem_destination,
      rule_resolution. first_only_eq.
  - intros itemId. unfold lockItem. first_only_eq.
  - intros itemId. unfold placeItem. first_only_eq.
  - intros itemId address. unfold takeItem. first_only_eq.
  - intros itemId amount. unfold listItem. first_only_eq.
  - intros itemId. unfold delistItem. first_only_eq.
  - unfold withdrawAll. first_only_eq.
  - unfold newKiosk. first_only_eq.
Qed.

End FirstResult.

(** Two capabilities and two policies on the demo ledger: the lookup
    returns the first capability, the lock uses the first policy and the
    purchase resolves the rules of the first policy. *)
Lemma first_result_wins_witness :
  isValidSuiAddress (Sdk := demoSdk)
    (signer_address
       (demo_owned [demo_royalty; demo_lock_royalty]
          [demo_cap "0xC1" "0xK9"; demo_cap "0xC2" "0xK8"])) = true /\
  ownedKioskCaps
    (demo_owned [demo_royalty; demo_lock_royalty]
       [demo_cap "0xC1" "0xK9"; demo_cap "0xC2" "0xK8"])
    (signer_address
       (demo_owned [demo_royalty; demo_lock_royalty]
          [demo_cap "0xC1" "0xK9"; demo_cap "0xC2" "0xK8"])) =
  [demo_cap "0xC1" "0xK9"; demo_cap "0xC2" "0xK8"] /\
  outcome (findKioskCap (sdk := demoSdk) None)
    (demo_owned [demo_royalty; demo_lock_royalty]
       [demo_cap "0xC1" "0xK9"; demo_cap "0xC2" "0xK8"]) =
  inr (demo_cap "0xC1" "0xK9") /\
  submitted
    (trace (lockItem (sdk := demoSdk) "0x1")
       (demo_owned [demo_royalty; demo_lock_royalty]
          [demo_cap "0xC1" "0xK9"; demo_cap "0xC2" "0xK8"])) =
  [[OpLock "0x2::nft::Nft" (ArgObject "0xK9")
      (ArgObjectRef "0xC1" "1" "c") (ArgObject "0xP1")
      (ArgObjectRef "0x1" "1" "d")]] /\
  purchaseItem (sdk := demoSdk) "0x1" (demo_opts None None)
    (demo_listed [demo_royalty; demo_lock_royalty]
       [demo_cap "0xC1" "0xK9"; demo_cap "0xC2" "0xK8"]) =
  purchaseItem (sdk := demoSdk) "0x1" (demo_opts None None)
    (first_only
       (demo_listed [demo_royalty; demo_lock_royalty]
          [demo_cap "0xC1" "0xK9"; demo_cap "0xC2" "0xK8"])).
Proof.
  split; [reflexivity |]. split; [reflexivity |].
  destruct (first_result_wins (sdk := demoSdk)
              (demo_owned [demo_royalty; demo_lock_royalty]
                 [demo_cap "0xC1" "0xK9"; demo_cap "0xC2" "0xK8"]))
    as (Hcap & Hused & _).
  split; [exact (Hcap None (demo_cap "0xC1" "0xK9") [demo_cap "0xC2" "0xK8"]
                   eq_refl eq_refl) |].
  split.
  - destruct (Hused (demo_cap "0xC1" "0xK9") [demo_cap "0xC2" "0xK8"]
                eq_refl eq_refl) as (_ & Hlock & _ & _).
    exact (Hlock "0x1" (demo_data "0x1" (AddressOwner "0xA1")) demo_royalty
             [demo_lock_royalty] eq_refl (conj eq_refl eq_refl) eq_refl
             eq_refl).
  - destruct (first_result_wins (sdk := demoSdk)
                (demo_listed [demo_royalty; demo_lock_royalty]
                   [demo_cap "0xC1" "0xK9"; demo_cap "0xC2" "0xK8"]))
      as (_ & _ & Hpurchase & _).
    exact (Hpurchase "0x1" (demo_opts None None)).
Defined.

Section NewKiosk.
Context {sdk : Sdk}.




End NewKiosk.



(** * Further properties of the handlers *)

Section Submission.
Context {sdk : Sdk}.

Ltac run_all :=
  unfold findKioskCap; run_unfold; simpl;
  repeat (run_case; simpl in *; try reflexivity; try congruence);
  try reflexivity.

(** X1.  No handler does anything after a submission, and none submits
    twice.  The trace of every run of a handler that builds a transaction
    either ends with its only submission, of the only block the run
    created, or holds no submission at all and at most one block that was
    created and dropped.  The two display handlers never create or submit
    a block. *)
Theorem handlers_submit_once_at_the_end (w : Ledger) :
  submits_once_at_the_end (trace newKiosk w) = true /\
  (forall itemId, submits_once_at_the_end (trace (placeItem itemId) w) = true) /\
  (forall itemId, submits_once_at_the_end (trace (lockItem itemId) w) = true) /\
  (forall itemId address,
     submits_once_at_the_end (trace (takeItem itemId address) w) = true) /\
  (forall itemId amount,
     submits_once_at_the_end (trace (listItem itemId amount) w) = true) /\
  (forall itemId,
     submits_once_at_the_end (trace (delistItem itemId) w) = true) /\
  (forall itemId opts,
     submits_once_at_the_end (trace (purchaseItem itemId opts) w) = true) /\
  submits_once_at_the_end (trace withdrawAll w) = true /\
  (forall opts, no_transaction (trace (showInventory opts) w) = true) /\
  (forall opts, no_transaction (trace (showKioskContents opts) w) = true).
Proof.
  split; [| split; [| split; [| split; [| split; [| split; [| split;
    [| split; [| split]]]]]]]].
  - unfold submits_once_at_the_end, newKiosk. run_all.
  - intros itemId. unfold submits_once_at_the_end, placeItem. run_all.
  - intros itemId. unfold submits_once_at_the_end, lockItem. run_all.
  - intros itemId address. unfold submits_once_at_the_end, takeItem. run_all.
  - intros itemId amount. unfold submits_once_at_the_end, listItem. run_all.
  - intros itemId. unfold submits_once_at_the_end, delistItem. run_all.
  - intros itemId opts.
    unfold submits_once_at_the_end, purchaseItem, purchaseItem_destination.
    run_all.
  - unfold submits_once_at_the_end, withdrawAll. run_all.
  - intros opts. unfold showInventory. run_all.
  - intros opts. unfold showKioskContents. run_all.
Qed.

End Submission.

Section KioskCommands.
Context {sdk : Sdk}.

Lemma not_owned_by_false (o : Owner) (address : string) :
  not_owned_by o address = false <-> o = AddressOwner address.
Proof.
  destruct o as [a | id |]; simpl; split; try discriminate.
  - intros Hn. apply negb_false_iff, String.eqb_eq in Hn. now subst.
  - intros [= ->]. now rewrite String.eqb_refl.
Qed.

Lemma not_owned_by_true (o : Owner) (address : string) :
  o <> AddressOwner address -> not_owned_by o address = true.
Proof.
  intros Hne. destruct (not_owned_by o address) eqn:Hn; [reflexivity |].
  now apply not_owned_by_false in Hn.
Qed.

(** The first two lines of [place] and [lock] for a caller with a
    capability. *)
Ltac open_with_cap w Hcap :=
  unfold bind at 1; unfold catch_null;
  rewrite (findKioskCap_found w _ Hcap);
  unfold bind at 1; unfold signer_getAddress at 1; cbv iota beta.

(** X2.  [place] accepts only an item the caller owns directly.  For a
    caller with a capability and a well-formed item id: a missing item
    fails with the not-found error; an item owned by another address, by
    an object or shared fails with the not-owned error; in both cases the
    item read is the last step and no block is created.  An item owned by
    the caller's address is placed by a block of exactly one operation,
    into the kiosk of the caller's capability. *)
Theorem place_only_own_items (w : Ledger) (itemId : string)
  (kioskCap : KioskOwnerCap) :
  outcome (findKioskCap None) w = inr kioskCap ->
  isValidSuiObjectId itemId = true ->
  (missing (objects w itemId) ->
   placeItem itemId w =
   (lookup_prefix w ++ [EvGetObject itemId],
    inl (ItemNotFoundError itemId (resp_error (objects w itemId))))) /\
  (forall data,
     found (objects w itemId) data ->
     data_owner data <> AddressOwner (signer_address w) ->
     placeItem itemId w =
     (lookup_prefix w ++ [EvGetObject itemId],
      inl (ItemNotOwnedBy itemId (signer_address w)))) /\
  (forall data,
     found (objects w itemId) data ->
     data_owner data = AddressOwner (signer_address w) ->
     placeItem itemId w =
     (lookup_prefix w
      ++ [EvGetObject itemId; EvNewTransactionBlock;
          EvSignAndExecute
            [OpPlace (data_type data) (ArgObject (cap_kioskId kioskCap))
               (objectRef_cap kioskCap) (objectRef_data data)]],
      inr tt)).
Proof.
  intros Hcap Hid.
  assert (Hrun : placeItem itemId w =
                 match require_data (objects w itemId)
                         (ItemNotFoundError itemId
                            (resp_error (objects w itemId))) w with
                 | (_, inl e) => (lookup_prefix w ++ [EvGetObject itemId], inl e)
                 | (_, inr data) =>
                     if not_owned_by (data_owner data) (signer_address w)
                     then (lookup_prefix w ++ [EvGetObject itemId],
                           inl (ItemNotOwnedBy itemId (signer_address w)))
                     else
                       (lookup_prefix w
                        ++ [EvGetObject itemId; EvNewTransactionBlock;
                            EvSignAndExecute
                              [OpPlace (data_type data)
                                 (ArgObject (cap_kioskId kioskCap))
                                 (objectRef_cap kioskCap)
                                 (objectRef_data data)]],
                        inr tt)
                 end).
  { unfold placeItem. open_with_cap w Hcap. rewrite Hid.
    unfold require_data, lookup_prefix. run_unfold. simpl.
    repeat (run_case; simpl in *; try reflexivity; try congruence). }
  split; [| split].
  - intros Hm. now rewrite Hrun, (require_data_missing _ _ _ Hm).
  - intros data Hf Ho.
    now rewrite Hrun, (require_data_found _ _ _ _ Hf),
      (not_owned_by_true _ _ Ho).
  - intros data Hf Ho.
    rewrite Hrun, (require_data_found _ _ _ _ Hf).
    now rewrite (proj2 (not_owned_by_false _ _) Ho).
Qed.

(** X3.  [lock] checks ownership before it looks for a policy.  For a
    caller with a capability and a well-formed item id, an item owned by
    another address, by an object or shared fails with the not-owned error
    without any policy query.  An item the caller owns is locked by a
    block of exactly one operation, with the first policy of the item's
    type and into the kiosk of the caller's capability. *)
Theorem lock_own_item_with_policy (w : Ledger) (itemId : string)
  (kioskCap : KioskOwnerCap) :
  outcome (findKioskCap None) w = inr kioskCap ->
  isValidSuiObjectId itemId = true ->
  (forall data,
     found (objects w itemId) data ->
     (exists address,
        data_owner data = AddressOwner address /\
        address <> signer_address w) \/
     (exists id, data_owner data = ObjectOwner id) \/
     data_owner data = Shared ->
     lockItem itemId w =
     (lookup_prefix w ++ [EvGetObject itemId],
      inl (ItemNotOwnedBy itemId (signer_address w)))) /\
  (forall data policy rest,
     found (objects w itemId) data ->
     data_owner data = AddressOwner (signer_address w) ->
     transferPolicies w (data_type data) = policy :: rest ->
     lockItem itemId w =
     (lookup_prefix w
      ++ [EvGetObject itemId; EvQueryTransferPolicy (data_type data);
          EvNewTransactionBlock;
          EvSignAndExecute
            [OpLock (data_type data) (ArgObject (cap_kioskId kioskCap))
               (objectRef_cap kioskCap) (ArgObject (policy_id policy))
               (objectRef_data data)]],
      inr tt)).
Proof.
  intros Hcap Hid. split.
  - intros data Hf Hshape.
    assert (Ho : data_owner data <> AddressOwner (signer_address w)).
    { destruct Hshape as [(address & -> & Hne) | [(id & ->) | ->]];
        congruence. }
    unfold lockItem. open_with_cap w Hcap. rewrite Hid.
    unfold bind, provider_getObject. simpl.
    rewrite (require_data_found _ _ _ _ Hf), (not_owned_by_true _ _ Ho).
    reflexivity.
  - intros data policy rest Hf Ho Hp. unfold lockItem.
    open_with_cap w Hcap. rewrite Hid.
    unfold bind, provider_getObject, queryTransferPolicy. simpl.
    rewrite (require_data_found _ _ _ _ Hf).
    rewrite (proj2 (not_owned_by_false _ _) Ho), Hp.
    reflexivity.
Qed.

(** X4.  [take] transfers what it takes.  For a caller with a capability,
    a well-formed receiver and item id, and an item that exists (whoever
    owns it: [take] reads only its type), the block is the take from the
    caller's kiosk followed by the transfer of the taken object, the
    result of the first operation, to the receiver: the given address, or
    the caller when none is given.  A missing item fails before a block is
    created. *)
Theorem take_transfers_taken (w : Ledger) (itemId : string)
  (address : option string) (kioskCap : KioskOwnerCap) :
  outcome (findKioskCap None) w = inr kioskCap ->
  isValidSuiAddress (address_or_signer address w) = true ->
  isValidSuiObjectId itemId = true ->
  (forall data,
     found (objects w itemId) data ->
     outcome (takeItem itemId address) w = inr tt /\
     ledger_calls (trace (takeItem itemId address) w) =
     [EvGetOwnedKiosks (signer_address w); EvGetObject itemId;
      EvSignAndExecute
        [OpTake (data_type data) (ArgObject (cap_kioskId kioskCap))
           (objectRef_cap kioskCap) itemId;
         OpTransferObjects [ArgResult 0]
           (ArgPure (address_or_signer address w) "address")]]) /\
  (missing (objects w itemId) ->
   outcome (takeItem itemId address) w =
   inl (ItemNotFoundError itemId (resp_error (objects w itemId))) /\
   no_transaction (trace (takeItem itemId address) w) = true).
Proof.
  unfold address_or_signer. intros Hcap Hv Hid.
  assert (Hrun :
            exists pre,
              ledger_calls pre = [EvGetOwnedKiosks (signer_address w)] /\
              no_transaction pre = true /\
              takeItem itemId address w =
              match require_data (objects w itemId)
                      (ItemNotFoundError itemId
                         (resp_error (objects w itemId))) w with
              | (_, inl e) => (pre ++ [EvGetObject itemId], inl e)
              | (_, inr data) =>
                  (pre
                   ++ [EvGetObject itemId; EvNewTransactionBlock;
                       EvSignAndExecute
                         [OpTake (data_type data)
                            (ArgObject (cap_kioskId kioskCap))
                            (objectRef_cap kioskCap) itemId;
                          OpTransferObjects [ArgResult 0]
                            (ArgPure
                               match js_truthy address with
                               | Some a => a
                               | None => signer_address w
                               end "address")]],
                   inr tt)
              end).
  { unfold takeItem. unfold bind at 1. unfold catch_null.
    rewrite (findKioskCap_found w _ Hcap). cbv iota beta.
    unfold or_else.
    destruct (js_truthy address) as [a |];
      [exists [EvGetAddress; EvGetOwnedKiosks (signer_address w)]
      | exists (lookup_prefix w)];
      (split; [reflexivity |]); (split; [reflexivity |]);
      unfold require_data, lookup_prefix; run_unfold; simpl;
      rewrite Hv, Hid; simpl;
      repeat (run_case; simpl in *; try reflexivity; try congruence). }
  destruct Hrun as (pre & Hcalls & Hno & Hrun).
  unfold outcome, trace. rewrite Hrun.
  split.
  - intros data Hf. rewrite (require_data_found _ _ _ _ Hf). simpl.
    split; [reflexivity |].
    unfold ledger_calls in *. rewrite filter_app, Hcalls. reflexivity.
  - intros Hm. rewrite (require_data_missing _ _ _ Hm). simpl.
    split; [reflexivity |].
    unfold no_transaction in *. rewrite forallb_app, Hno. reflexivity.
Qed.

(** X5.  [list] and [delist] check nothing about the item but that it
    exists, and [list] checks nothing about the amount.  For a caller with
    a capability and a well-formed item id, an existing item (whoever owns
    it) is delisted by a block of one operation on the kiosk of the
    caller's capability.  To list it, the handler hands the item's type,
    that kiosk, the capability, the item id and the amount as given to the
    builder, on the empty block it has just created: it submits the block
    the builder returns, and when the builder throws, the run ends with
    the builder's error after the capability lookup and the item read,
    with nothing submitted.  A missing item fails both before a block is
    created. *)
Theorem list_hands_amount_to_builder (w : Ledger) (itemId : string)
  (kioskCap : KioskOwnerCap) :
  outcome (findKioskCap None) w = inr kioskCap ->
  isValidSuiObjectId itemId = true ->
  (forall data amount,
     found (objects w itemId) data ->
     (forall txb,
        list_ [] (data_type data) (ArgObject (cap_kioskId kioskCap))
          (objectRef_cap kioskCap) itemId amount = inr txb ->
        listItem itemId amount w =
        ([EvGetAddress; EvGetOwnedKiosks (signer_address w);
          EvGetObject itemId; EvNewTransactionBlock; EvSignAndExecute txb],
         inr tt)) /\
     (forall e,
        list_ [] (data_type data) (ArgObject (cap_kioskId kioskCap))
          (objectRef_cap kioskCap) itemId amount = inl e ->
        listItem itemId amount w =
        ([EvGetAddress; EvGetOwnedKiosks (signer_address w);
          EvGetObject itemId; EvNewTransactionBlock],
         inl e)) /\
     delistItem itemId w =
     ([EvGetAddress; EvGetOwnedKiosks (signer_address w);
       EvGetObject itemId; EvNewTransactionBlock;
       EvSignAndExecute
         [OpDelist (data_type data) (ArgObject (cap_kioskId kioskCap))
            (objectRef_cap kioskCap) itemId]],
      inr tt)) /\
  (forall amount,
     missing (objects w itemId) ->
     listItem itemId amount w =
     ([EvGetAddress; EvGetOwnedKiosks (signer_address w);
       EvGetObject itemId],
      inl (ItemNotFoundError itemId (resp_error (objects w itemId)))) /\
     delistItem itemId w =
     ([EvGetAddress; EvGetOwnedKiosks (signer_address w);
       EvGetObject itemId],
      inl (ItemNotFoundError itemId (resp_error (objects w itemId))))).
Proof.
  intros Hcap Hid. split.
  - intros data amount Hf.
    split; [| split]; [intros txb Hb | intros e Hb |];
      [unfold listItem | unfold listItem | unfold delistItem];
      unfold bind, catch_null, lift;
      rewrite (findKioskCap_found w _ Hcap), Hid;
      unfold provider_getObject; simpl;
      rewrite (require_data_found _ _ _ _ Hf); simpl;
      rewrite ?Hb; reflexivity.
  - intros amount Hm.
    split; [unfold listItem | unfold delistItem];
      unfold bind, catch_null; rewrite (findKioskCap_found w _ Hcap), Hid;
      unfold provider_getObject; simpl;
      now rewrite (require_data_missing _ _ _ Hm).
Qed.

(** X6.  [withdraw] takes everything and sends it to the caller.  For a
    caller with a well-formed address whose first capability is
    [kioskCap], the only ledger calls are the capability lookup and the
    submission of a two-operation block: the withdrawal from the kiosk of
    that capability with no amount given (all profits), and the transfer
    of the withdrawn coin, the result of the first operation, to the
    caller's address. *)
Theorem withdraw_all_to_sender (w : Ledger) (kioskCap : KioskOwnerCap)
  (rest : list KioskOwnerCap) :
  isValidSuiAddress (signer_address w) = true ->
  ownedKioskCaps w (signer_address w) = kioskCap :: rest ->
  outcome withdrawAll w = inr tt /\
  ledger_calls (trace withdrawAll w) =
  [EvGetOwnedKiosks (signer_address w);
   EvSignAndExecute
     [OpWithdraw (ArgObject (cap_kioskId kioskCap)) (objectRef_cap kioskCap)
        None;
      OpTransferObjects [ArgResult 0]
        (ArgPure (signer_address w) "address")]].
Proof.
  intros Hv Hcaps.
  unfold outcome, trace, withdrawAll, findKioskCap, or_else, js_truthy.
  run_unfold. simpl.
  destruct (String.eqb (signer_address w) ""); simpl;
    rewrite Hv; simpl; rewrite Hcaps; simpl; now split.
Qed.

End KioskCommands.

Section Contents.
Context {sdk : Sdk}.

Lemma js_truthy_nonempty (o : option string) (a : string) :
  js_truthy o = Some a -> String.eqb a "" = false.
Proof.
  destruct o as [s |]; simpl; [| discriminate].
  destruct (String.eqb s "") eqn:He; [discriminate |].
  now intros [= <-].
Qed.

(** X7.  [contents] shows the kiosk it is told to, else the kiosk of a
    capability.  With a well-formed [--id] it fetches that kiosk and
    nothing else: neither the signer nor any capability is consulted and
    [--address] is ignored.  Without an id it looks up the capabilities of
    the given address, or of the caller when none is given, and fetches
    the kiosk of the first one; an address without capability fails with
    the no-kiosk error of that address and fetches nothing. *)
Theorem contents_selects_kiosk (w : Ledger) (opts : ContentsOptions) :
  (forall id,
     js_truthy (con_id opts) = Some id ->
     isValidSuiObjectId id = true ->
     showKioskContents opts w = ([EvFetchKiosk id], inr tt)) /\
  (js_truthy (con_id opts) = None ->
   isValidSuiAddress (address_or_signer (con_address opts) w) = true ->
   (forall kioskCap rest,
      ownedKioskCaps w (address_or_signer (con_address opts) w) =
      kioskCap :: rest ->
      outcome (showKioskContents opts) w = inr tt /\
      ledger_calls (trace (showKioskContents opts) w) =
      [EvGetOwnedKiosks (address_or_signer (con_address opts) w);
       EvFetchKiosk (cap_kioskId kioskCap)]) /\
   (ownedKioskCaps w (address_or_signer (con_address opts) w) = [] ->
    outcome (showKioskContents opts) w =
    inl (NoKioskFoundForAddress (address_or_signer (con_address opts) w)) /\
    ledger_calls (trace (showKioskContents opts) w) =
    [EvGetOwnedKiosks (address_or_signer (con_address opts) w)])).
Proof.
  split.
  - intros id Hid Hv. unfold showKioskContents, bind, fetchKiosk.
    now rewrite Hid, Hv.
  - unfold address_or_signer. intros Hid Hv.
    unfold outcome, trace, showKioskContents, findKioskCap, or_else.
    rewrite Hid.
    destruct (js_truthy (con_address opts)) as [a |] eqn:Ha.
    + unfold js_truthy. run_unfold. simpl.
      rewrite Hv, (js_truthy_nonempty _ _ Ha). simpl. rewrite Hv. simpl.
      split; [intros kioskCap rest Hcaps | intros Hcaps];
        rewrite Hcaps; simpl; now split.
    + unfold js_truthy. run_unfold. simpl. rewrite Hv. simpl.
      destruct (String.eqb (signer_address w) ""); simpl;
        rewrite Hv; simpl;
        (split; [intros kioskCap rest Hcaps | intros Hcaps]);
        rewrite Hcaps; simpl; now split.
Qed.

(** X8.  [new] takes every failure of the capability lookup for "no kiosk
    yet".  If the lookup fails, for whatever reason, [new] creates the
    kiosk: it submits the two-operation block that creates it and
    transfers the capability to the caller.  If the lookup yields a
    capability, [new] fails with the already-exists error and creates no
    block.  In particular a caller whose address does not pass the address
    check gets a kiosk created without any capability query. *)
Theorem new_succeeds_iff_lookup_fails (w : Ledger) :
  (forall e,
     outcome (findKioskCap None) w = inl e ->
     newKiosk w =
     (EvGetAddress :: trace (findKioskCap None) w
      ++ [EvNewTransactionBlock;
          EvSignAndExecute (new_kiosk_block (signer_address w))],
      inr tt)) /\
  (forall kioskCap,
     outcome (findKioskCap None) w = inr kioskCap ->
     newKiosk w =
     (EvGetAddress :: trace (findKioskCap None) w,
      inl (KioskAlreadyExists (signer_address w)))) /\
  (isValidSuiAddress (signer_address w) = false ->
   newKiosk w =
   ([EvGetAddress; EvGetAddress; EvNewTransactionBlock;
     EvSignAndExecute (new_kiosk_block (signer_address w))],
    inr tt)).
Proof.
  split; [| split].
  - intros e. unfold outcome, trace, newKiosk.
    unfold bind at 1 2, catch_null, signer_getAddress at 1.
    destruct (findKioskCap None w) as [t [e' | c]]; simpl;
      [| discriminate].
    intros _. reflexivity.
  - intros kioskCap. unfold outcome, trace, newKiosk.
    unfold bind at 1 2, catch_null, signer_getAddress at 1.
    destruct (findKioskCap None w) as [t [e' | c]]; simpl;
      [discriminate |].
    intros _. now rewrite app_nil_r.
  - intros Hv. unfold newKiosk, findKioskCap. run_unfold. simpl.
    now rewrite Hv.
Qed.

End Contents.

Section PurchaseOutcome.
Context {sdk : Sdk}.

(** X9.  Once the reads are done and the caller's capability is found,
    rule resolution decides what a purchase does.  An error thrown by rule
    resolution is the error of the purchase: the block was created but
    nothing is submitted.  If rule resolution returns, no check of the
    handler stands between it and the submission: the purchase goes on to
    submit one block, the resolved block as it is when the item must stay
    in custody and with one destination operation appended otherwise. *)
Theorem purchase_follows_resolution (w : Ledger) (itemId : string)
  (opts : PurchaseOptions) (t1 : list Event) (ctx : PurchaseContext)
  (kioskCap : KioskOwnerCap) :
  purchaseItem_context itemId opts w = (t1, inr ctx) ->
  outcome (findKioskCap None) w = inr kioskCap ->
  (forall e,
     rule_resolution opts ctx kioskCap [] = inl e ->
     purchaseItem itemId opts w = (t1 ++ assembly_prefix w, inl e) /\
     submitted (trace (purchaseItem itemId opts) w) = []) /\
  (forall txb item canTransfer,
     rule_resolution opts ctx kioskCap [] = inr (txb, item, canTransfer) ->
     exists t block,
       trace (purchaseItem itemId opts) w = t ++ [EvSignAndExecute block] /\
       submitted t = [] /\
       (canTransfer = false -> block = txb) /\
       (canTransfer = true ->
        exists final,
          block = txb ++ [final] /\ is_destination final = true)).
Proof.
  intros Hc Hcap.
  split.
  - intros e Hres.
    destruct (purchase_failed_resolution_run w itemId opts t1 ctx kioskCap e
                Hc Hcap Hres) as [Hrun Hs].
    split; [exact Hrun |].
    unfold trace. now rewrite Hrun.
  - intros txb item [|] Hres.
    + destruct (purchase_free_run w itemId opts t1 ctx kioskCap txb item
                  Hc Hcap Hres) as (t & final & Hrun & Hs & Hd).
      exists t, (txb ++ [final]). unfold trace. rewrite Hrun.
      split; [reflexivity |]. split; [exact Hs |].
      split; [discriminate |]. intros _. now exists final.
    + destruct (purchase_locked_run w itemId opts t1 ctx kioskCap txb item
                  Hc Hcap Hres) as [Hrun Hs].
      exists (t1 ++ assembly_prefix w), txb. unfold trace. rewrite Hrun.
      split; [reflexivity |]. split; [exact Hs |].
      split; [reflexivity | discriminate].
Qed.

Lemma purchaseItem_kioskId_target (itemId : string)
  (opts opts' : PurchaseOptions) (w : Ledger) :
  opt_kiosk opts' = opt_kiosk opts ->
  invalid_target (opt_target opts) = false ->
  invalid_target (opt_target opts') = false ->
  purchaseItem_kioskId itemId opts' w = purchaseItem_kioskId itemId opts w.
Proof.
  intros Hk Ht Ht'. unfold purchaseItem_kioskId.
  now rewrite Hk, Ht, Ht'.
Qed.

Lemma purchaseItem_context_valid_target (itemId : string)
  (opts : PurchaseOptions) (w : Ledger) (t1 : list Event)
  (ctx : PurchaseContext) :
  purchaseItem_context itemId opts w = (t1, inr ctx) ->
  invalid_target (opt_target opts) = false.
Proof.
  unfold purchaseItem_context, purchaseItem_kioskId, bind.
  destruct (invalid_target (opt_target opts)); [| reflexivity].
  discriminate.
Qed.

(** X10.  When the item must stay locked, the target of the purchase is
    ignored.  If rule resolution yields [canTransfer = false], the same
    purchase with any other acceptable target (["kiosk"], a well-formed
    address, or none) is the same run: the same reads and the same
    submitted block. *)
Theorem locked_purchase_ignores_target (w : Ledger) (itemId : string)
  (opts opts' : PurchaseOptions) (t1 : list Event) (ctx : PurchaseContext)
  (kioskCap : KioskOwnerCap) (txb : TransactionBlock) (item : TxArg) :
  opt_kiosk opts' = opt_kiosk opts ->
  opt_env opts' = opt_env opts ->
  invalid_target (opt_target opts') = false ->
  purchaseItem_context itemId opts w = (t1, inr ctx) ->
  outcome (findKioskCap None) w = inr kioskCap ->
  rule_resolution opts ctx kioskCap [] = inr (txb, item, false) ->
  purchaseItem itemId opts' w = purchaseItem itemId opts w.
Proof.
  intros Hk He Ht' Hc Hcap Hres.
  pose proof (purchaseItem_context_valid_target _ _ _ _ _ Hc) as Ht.
  assert (Hc' : purchaseItem_context itemId opts' w = (t1, inr ctx)).
  { rewrite <- Hc. unfold purchaseItem_context, bind.
    now rewrite (purchaseItem_kioskId_target itemId opts opts' w Hk Ht Ht'). }
  assert (Hres' : rule_resolution opts' ctx kioskCap [] =
                  inr (txb, item, false)).
  { rewrite <- Hres. unfold rule_resolution. now rewrite He. }
  rewrite (proj1 (purchase_locked_run w itemId opts' t1 ctx kioskCap txb
                    item Hc' Hcap Hres')).
  now rewrite (proj1 (purchase_locked_run w itemId opts t1 ctx kioskCap txb
                        item Hc Hcap Hres)).
Qed.

End PurchaseOutcome.

Section SearchListings.
Context {Timestamp : Type}.
Variable before : Timestamp -> Timestamp -> bool.

Lemma superseded_false (e : KioskEvent Timestamp)
  (later : list (KioskEvent Timestamp)) :
  superseded before e later = false <->
  forall item,
    In item later ->
    ev_id item = ev_id e ->
    before (ev_timestampMs e) (ev_timestampMs item) = false.
Proof.
  unfold superseded. split.
  - intros Hnone item Hin Hid.
    destruct (before (ev_timestampMs e) (ev_timestampMs item)) eqn:Hb;
      [| reflexivity].
    assert (Hex : existsb
                    (fun item0 =>
                       String.eqb (ev_id e) (ev_id item0)
                       && before (ev_timestampMs e) (ev_timestampMs item0))
                    later = true).
    { apply existsb_exists. exists item. split; [exact Hin |].
      now rewrite Hid, String.eqb_refl, Hb. }
    congruence.
  - intros Hall. apply not_true_is_false. intros Hex.
    apply existsb_exists in Hex as (item & Hin & Hboth).
    apply andb_true_iff in Hboth as [Hid Hb].
    apply String.eqb_eq in Hid.
    rewrite (Hall item Hin (eq_sym Hid)) in Hb. discriminate.
Qed.

Lemma superseded_app (e : KioskEvent Timestamp)
  (later other : list (KioskEvent Timestamp)) :
  superseded before e (later ++ other) =
  superseded before e later || superseded before e other.
Proof.
  unfold superseded. apply existsb_app.
Qed.

Lemma superseded_other_items (e : KioskEvent Timestamp)
  (other : list (KioskEvent Timestamp)) :
  (forall o, In o other -> ev_id o <> ev_id e) ->
  superseded before e other = false.
Proof.
  intros Hother. apply superseded_false.
  intros item Hin Hid. now elim (Hother item Hin).
Qed.

(** X11.  [search] hides a listing only for a later delisting or purchase
    of the same item.  A listing event is shown exactly when it was
    returned by the listing query and no delisting and no purchase event
    with its item id has a later timestamp; so a re-listed item shows with
    its newest listing.  Delisting and purchase events of other items
    change nothing. *)
Theorem search_hides_closed_listings
  (listed delisted purchased : list (KioskEvent Timestamp)) :
  (forall e,
     In e (searchType_listings before listed delisted purchased) <->
     In e listed /\
     (forall d,
        In d delisted -> ev_id d = ev_id e ->
        before (ev_timestampMs e) (ev_timestampMs d) = false) /\
     (forall p,
        In p purchased -> ev_id p = ev_id e ->
        before (ev_timestampMs e) (ev_timestampMs p) = false)) /\
  (forall otherDelisted otherPurchased,
     (forall e o,
        In e listed -> In o (otherDelisted ++ otherPurchased) ->
        ev_id o <> ev_id e) ->
     searchType_listings before listed (delisted ++ otherDelisted)
       (purchased ++ otherPurchased) =
     searchType_listings before listed delisted purchased).
Proof.
  split.
  - intros e. unfold searchType_listings.
    rewrite !filter_In, !negb_true_iff, !superseded_false. tauto.
  - intros otherDelisted otherPurchased Hother.
    unfold searchType_listings.
    assert (Hd : filter (fun e => negb (superseded before e
                                          (delisted ++ otherDelisted)))
                   listed =
                 filter (fun e => negb (superseded before e delisted))
                   listed).
    { apply filter_ext_in. intros e He.
      rewrite superseded_app, (superseded_other_items e otherDelisted).
      - now rewrite orb_false_r.
      - intros o Ho. apply (Hother e o He), in_or_app. now left. }
    rewrite Hd. apply filter_ext_in. intros e He.
    apply filter_In in He as [He _].
    rewrite superseded_app, (superseded_other_items e otherPurchased).
    + now rewrite orb_false_r.
    + intros o Ho. apply (Hother e o He), in_or_app. now right.
Qed.

End SearchListings.

Section RuleNames.

Lemma split_colons_nonempty (s : string) : split_colons s <> [].
Proof.
  destruct s as [| c [| c' rest]]; simpl; try discriminate.
  destruct (Ascii.eqb c ":" && Ascii.eqb c' ":"); [discriminate |].
  destruct (match rest with
            | EmptyString => _
            | String _ _ => _
            end); discriminate.
Qed.

Lemma join_colons_cons (piece : string) (pieces : list string) :
  pieces <> [] ->
  join_colons (piece :: pieces) = (piece ++ "::" ++ join_colons pieces)%string.
Proof.
  destruct pieces; [congruence | reflexivity].
Qed.

Lemma join_colons_char (c : ascii) (piece : string) (pieces : list string) :
  join_colons (String c piece :: pieces) =
  String c (join_colons (piece :: pieces)).
Proof.
  destruct pieces; reflexivity.
Qed.

(** Splitting a string that starts a new character. *)
Lemma split_colons_step (c c' : ascii) (rest : string) :
  split_colons (String c (String c' rest)) =
  if Ascii.eqb c ":" && Ascii.eqb c' ":"
  then EmptyString :: split_colons rest
  else match split_colons (String c' rest) with
       | piece :: pieces => String c piece :: pieces
       | [] => [String c EmptyString]
       end.
Proof. reflexivity. Qed.

Lemma join_split_colons_bounded (n : nat) :
  forall s, String.length s <= n -> join_colons (split_colons s) = s.
Proof.
  induction n as [| n IH]; intros s Hlen.
  - destruct s; [reflexivity | simpl in Hlen; lia].
  - destruct s as [| c [| c' rest]]; try reflexivity.
    rewrite split_colons_step.
    destruct (Ascii.eqb c ":" && Ascii.eqb c' ":") eqn:Hsep.
    + apply andb_true_iff in Hsep as [Hc Hc'].
      apply Ascii.eqb_eq in Hc, Hc'. subst.
      rewrite (join_colons_cons _ _ (split_colons_nonempty rest)).
      rewrite IH; [reflexivity | simpl in Hlen; lia].
    + assert (Htail : join_colons (split_colons (String c' rest)) =
                      String c' rest).
      { apply IH. simpl in *. lia. }
      destruct (split_colons (String c' rest)) as [| piece pieces] eqn:Hs;
        [now elim (split_colons_nonempty (String c' rest)) |].
      now rewrite join_colons_char, Htail.
Qed.

Lemma split_colons_package (package rest : string) :
  has_char ":" package = false ->
  split_colons (package ++ "::" ++ rest) = package :: split_colons rest.
Proof.
  induction package as [| c package IH]; intros Hno.
  - simpl. reflexivity.
  - simpl in Hno. apply orb_false_iff in Hno as [Hc Hno].
    specialize (IH Hno).
    assert (Hc' : Ascii.eqb c ":" = false).
    { now rewrite Ascii.eqb_sym. }
    change (String c package ++ "::" ++ rest)%string
      with (String c (package ++ "::" ++ rest)).
    destruct (package ++ "::" ++ rest)%string as [| c2 tail] eqn:Htail.
    + destruct package; discriminate.
    + rewrite split_colons_step, Hc'. simpl andb. cbv iota.
      now rewrite IH.
Qed.

Lemma split_colons_plain (s : string) :
  has_char ":" s = false -> split_colons s = [s].
Proof.
  induction s as [| c s IH]; intros Hno; [reflexivity |].
  simpl in Hno. apply orb_false_iff in Hno as [Hc Hno].
  specialize (IH Hno).
  destruct s as [| c' rest]; [reflexivity |].
  rewrite split_colons_step.
  assert (Hc' : Ascii.eqb c ":" = false) by now rewrite Ascii.eqb_sym.
  rewrite Hc'. simpl andb. cbv iota. now rewrite IH.
Qed.

(** X12.  The rule column of [policy] drops the package address and
    nothing else.  Joining the pieces of a split gives the string back;
    for a rule type written [package::module::Name], with no colon in the
    package address, the shown text is [module::Name], exactly what
    follows the first separator; a rule without any colon shows as the
    empty text. *)
Theorem rule_without_package_is_suffix :
  (forall s, join_colons (split_colons s) = s) /\
  (forall package rest,
     has_char ":" package = false ->
     rule_without_package (package ++ "::" ++ rest) = rest) /\
  (forall rule,
     has_char ":" rule = false -> rule_without_package rule = EmptyString).
Proof.
  split; [| split].
  - intros s. now apply (join_split_colons_bounded (String.length s)).
  - intros package rest Hno. unfold rule_without_package.
    rewrite (split_colons_package _ _ Hno). simpl tl.
    now apply (join_split_colons_bounded (String.length rest)).
  - intros rule Hno. unfold rule_without_package.
    now rewrite (split_colons_plain _ Hno).
Qed.

End RuleNames.

Section ContentsOrder.
Context {Amount : Type}.
Variable formatType : string -> string.
Variable formatAmount : string -> Amount.

(** A listed row goes behind the unlisted rows and in front of the listed
    ones. *)
Lemma sort_insert_listed (x : ContentsRow Amount)
  (unlisted listed : list (ContentsRow Amount)) :
  row_listed x = true ->
  Forall (fun r => row_listed r = false) unlisted ->
  Forall (fun r => row_listed r = true) listed ->
  sort_insert by_listed x (unlisted ++ listed) = unlisted ++ x :: listed.
Proof.
  intros Hx Hun Hli.
  induction Hun as [| y unlisted Hy Hun IH]; simpl.
  - destruct Hli as [| y listed Hy Hli]; [reflexivity |].
    simpl. unfold by_listed. now rewrite Hx, Hy.
  - unfold by_listed at 1. rewrite Hx, Hy. simpl. now rewrite IH.
Qed.

Lemma sort_insert_unlisted (x : ContentsRow Amount)
  (rows : list (ContentsRow Amount)) :
  row_listed x = false ->
  sort_insert by_listed x rows = x :: rows.
Proof.
  intros Hx. destruct rows as [| y rows]; [reflexivity |].
  simpl. unfold by_listed. rewrite Hx.
  now destruct (row_listed y).
Qed.

Lemma array_sort_by_listed (rows : list (ContentsRow Amount)) :
  array_sort by_listed rows =
  filter (fun r => negb (row_listed r)) rows ++ filter row_listed rows.
Proof.
  induction rows as [| x rows IH]; [reflexivity |].
  simpl. rewrite IH.
  destruct (row_listed x) eqn:Hx; simpl.
  - apply sort_insert_listed; [exact Hx | |];
      apply Forall_forall; intros r Hr; apply filter_In in Hr as [_ Hr];
      [now apply negb_true_iff in Hr | exact Hr].
  - now apply sort_insert_unlisted.
Qed.

Lemma filter_split_permutation {A : Type} (f : A -> bool) (l : list A) :
  Permutation (filter (fun x => negb (f x)) l ++ filter f l) l.
Proof.
  induction l as [| x l IH]; [constructor |].
  simpl. destruct (f x); simpl.
  - apply Permutation_sym, Permutation_cons_app, Permutation_sym, IH.
  - now constructor.
Qed.

(** X13.  The table of [contents] shows every item of the kiosk exactly
    once, the items that are not listed first and the listed ones after
    them, each group in the order the kiosk returned its items.  A row is
    public exactly when its item is listed and the listing is not
    exclusive, and its price is shown exactly when it is listed. *)
Theorem contents_table_unlisted_first (items : list KioskItem) :
  tabledItems formatType formatAmount items =
  map (contents_row formatType formatAmount)
    (filter (fun item => negb (is_listed item)) items)
  ++ map (contents_row formatType formatAmount) (filter is_listed items) /\
  Permutation (tabledItems formatType formatAmount items)
    (map (contents_row formatType formatAmount) items) /\
  (forall row,
     In row (tabledItems formatType formatAmount items) ->
     (row_isPublic row = true -> row_listed row = true) /\
     (row_price row = PriceNA <-> row_listed row = false)).
Proof.
  assert (Hsort : tabledItems formatType formatAmount items =
                  map (contents_row formatType formatAmount)
                    (filter (fun item => negb (is_listed item)) items)
                  ++ map (contents_row formatType formatAmount)
                       (filter is_listed items)).
  { unfold tabledItems. rewrite array_sort_by_listed.
    f_equal.
    - induction items as [| item items IH]; [reflexivity |].
      simpl. unfold is_listed at 1.
      destruct (item_listing item); simpl; now rewrite IH.
    - induction items as [| item items IH]; [reflexivity |].
      simpl. unfold is_listed at 1.
      destruct (item_listing item); simpl; now rewrite IH. }
  assert (Hperm : Permutation (tabledItems formatType formatAmount items)
                    (map (contents_row formatType formatAmount) items)).
  { rewrite Hsort, <- map_app. apply Permutation_map.
    apply filter_split_permutation. }
  split; [exact Hsort |]. split; [exact Hperm |].
  intros row Hin.
  apply (Permutation_in _ Hperm), in_map_iff in Hin as (item & <- & _).
  unfold contents_row. simpl.
  destruct (item_listing item); simpl; split; try split;
    congruence.
Qed.

End ContentsOrder.

Section Capabilities.
Context {sdk : Sdk}.

(** X15.  The three outcomes of [findKioskCap].  The address looked up is
    the given one, or the signer's when none (or the empty string) is
    given; the signer is not asked when an address is given.  An address
    that fails the address check is rejected before any ledger call; an
    address without capability fails after the one query; otherwise the
    first capability is returned. *)
Theorem findKioskCap_outcomes (w : Ledger) (address : option string) :
  (forall a, js_truthy address = Some a ->
             ~ In EvGetAddress (trace (findKioskCap address) w)) /\
  (isValidSuiAddress (address_or_signer address w) = false ->
   outcome (findKioskCap address) w =
   inl (InvalidAddress (address_or_signer address w)) /\
   ledger_calls (trace (findKioskCap address) w) = []) /\
  (isValidSuiAddress (address_or_signer address w) = true ->
   ledger_calls (trace (findKioskCap address) w) =
   [EvGetOwnedKiosks (address_or_signer address w)] /\
   outcome (findKioskCap address) w =
   match ownedKioskCaps w (address_or_signer address w) with
   | [] => inl (NoKioskFoundFor (address_or_signer address w))
   | first :: _ => inr first
   end).
Proof.
  unfold address_or_signer, outcome, trace, findKioskCap, or_else.
  split; [| split].
  - intros a ->. run_unfold. simpl.
    destruct (isValidSuiAddress a); simpl.
    + destruct (ownedKioskCaps w a); simpl; intros [H | []];
        discriminate.
    + intros [].
  - intros Hv. destruct (js_truthy address) as [a |]; run_unfold; simpl;
      rewrite Hv; now split.
  - intros Hv. destruct (js_truthy address) as [a |]; run_unfold; simpl;
      rewrite Hv; simpl;
      match goal with
      | |- context [ownedKioskCaps w ?x] => destruct (ownedKioskCaps w x)
      end; now split.
Qed.

Ltac same_caps Hsame :=
  unfold with_caps, findKioskCap, or_else, js_truthy;
  run_unfold; simpl; rewrite ?Hsame;
  repeat (run_case; simpl in *; rewrite ?Hsame; try reflexivity;
          try congruence);
  try reflexivity.

(** X14.  No command looks at anybody else's capabilities.  The run of
    every handler that builds a transaction is the same on any ledger
    that differs only in the capabilities held by addresses other than the
    caller's. *)
Theorem commands_read_only_callers_capabilities (w : Ledger)
  (caps : string -> list KioskOwnerCap) :
  caps (signer_address w) = ownedKioskCaps w (signer_address w) ->
  newKiosk (with_caps w caps) = newKiosk w /\
  (forall itemId, placeItem itemId (with_caps w caps) = placeItem itemId w) /\
  (forall itemId, lockItem itemId (with_caps w caps) = lockItem itemId w) /\
  (forall itemId address,
     takeItem itemId address (with_caps w caps) =
     takeItem itemId address w) /\
  (forall itemId amount,
     listItem itemId amount (with_caps w caps) = listItem itemId amount w) /\
  (forall itemId,
     delistItem itemId (with_caps w caps) = delistItem itemId w) /\
  (forall itemId opts,
     purchaseItem itemId opts (with_caps w caps) =
     purchaseItem itemId opts w) /\
  withdrawAll (with_caps w caps) = withdrawAll w.
Proof.
  intros Hsame.
  split; [| split; [| split; [| split; [| split; [| split; [| split]]]]]].
  - unfold newKiosk. same_caps Hsame.
  - intros itemId. unfold placeItem. same_caps Hsame.
  - intros itemId. unfold lockItem. same_caps Hsame.
  - intros itemId address. unfold takeItem. same_caps Hsame.
  - intros itemId amount. unfold listItem. same_caps Hsame.
  - intros itemId. unfold delistItem. same_caps Hsame.
  - intros itemId opts. unfold purchaseItem, purchaseItem_destination.
    same_caps Hsame.
  - unfold withdrawAll. same_caps Hsame.
Qed.

End Capabilities.

(** ** The further properties on the concrete ledger *)

(** The caller places the item [0x1] of their inventory. *)
Lemma place_only_own_items_witness :
  outcome (findKioskCap (sdk := demoSdk) None) (demo_owned [] demo_one_cap) =
  inr (demo_cap "0xC1" "0xK9") /\
  isValidSuiObjectId (Sdk := demoSdk) "0x1" = true /\
  snd (placeItem (sdk := demoSdk) "0x1" (demo_owned [] demo_one_cap)) =
  inr tt.
Proof.
  split; [reflexivity |]. split; [reflexivity |].
  destruct (place_only_own_items (sdk := demoSdk)
              (demo_owned [] demo_one_cap) "0x1" (demo_cap "0xC1" "0xK9")
              eq_refl eq_refl) as (_ & _ & Hown).
  exact (f_equal snd
           (Hown (demo_data "0x1" (AddressOwner "0xA1"))
              (conj eq_refl eq_refl) eq_refl)).
Defined.

(** The caller locks the item [0x1] under the royalty policy. *)
Lemma lock_own_item_with_policy_witness :
  outcome (findKioskCap (sdk := demoSdk) None)
    (demo_owned [demo_royalty] demo_one_cap) =
  inr (demo_cap "0xC1" "0xK9") /\
  isValidSuiObjectId (Sdk := demoSdk) "0x1" = true /\
  snd (lockItem (sdk := demoSdk) "0x1"
         (demo_owned [demo_royalty] demo_one_cap)) = inr tt.
Proof.
  split; [reflexivity |]. split; [reflexivity |].
  destruct (lock_own_item_with_policy (sdk := demoSdk)
              (demo_owned [demo_royalty] demo_one_cap) "0x1"
              (demo_cap "0xC1" "0xK9") eq_refl eq_refl) as (_ & Hown).
  exact (f_equal snd
           (Hown (demo_data "0x1" (AddressOwner "0xA1")) demo_royalty []
              (conj eq_refl eq_refl) eq_refl eq_refl)).
Defined.

(** The caller takes [0x1] for the address [0xB2]. *)
Lemma take_transfers_taken_witness :
  outcome (findKioskCap (sdk := demoSdk) None) (demo_listed [] demo_one_cap) =
  inr (demo_cap "0xC1" "0xK9") /\
  isValidSuiAddress (Sdk := demoSdk)
    (address_or_signer (Some "0xB2") (demo_listed [] demo_one_cap)) = true /\
  isValidSuiObjectId (Sdk := demoSdk) "0x1" = true /\
  outcome (takeItem (sdk := demoSdk) "0x1" (Some "0xB2"))
    (demo_listed [] demo_one_cap) = inr tt.
Proof.
  split; [reflexivity |]. split; [reflexivity |]. split; [reflexivity |].
  destruct (take_transfers_taken (sdk := demoSdk)
              (demo_listed [] demo_one_cap) "0x1" (Some "0xB2")
              (demo_cap "0xC1" "0xK9") eq_refl eq_refl eq_refl)
    as (Hfound & _).
  exact (proj1 (Hfound (demo_data "0x1" (ObjectOwner "0xF1"))
                  (conj eq_refl eq_refl))).
Defined.

(** The caller lists [0x1] for an amount that is not a number: the
    builder of the examples throws, after the capability lookup and the
    item read. *)
Lemma list_hands_amount_to_builder_witness :
  outcome (findKioskCap (sdk := demoSdk) None) (demo_listed [] demo_one_cap) =
  inr (demo_cap "0xC1" "0xK9") /\
  isValidSuiObjectId (Sdk := demoSdk) "0x1" = true /\
  listItem (sdk := demoSdk) "0x1" "lots" (demo_listed [] demo_one_cap) =
  ([EvGetAddress; EvGetOwnedKiosks "0xA1"; EvGetObject "0x1";
    EvNewTransactionBlock],
   inl (BuilderError "amount is not a u64")).
Proof.
  split; [reflexivity |]. split; [reflexivity |].
  destruct (list_hands_amount_to_builder (sdk := demoSdk)
              (demo_listed [] demo_one_cap) "0x1" (demo_cap "0xC1" "0xK9")
              eq_refl eq_refl) as (Hfound & _).
  destruct (Hfound (demo_data "0x1" (ObjectOwner "0xF1")) "lots"
              (conj eq_refl eq_refl)) as (_ & Hthrows & _).
  exact (Hthrows (BuilderError "amount is not a u64") eq_refl).
Defined.

(** The caller withdraws from the kiosk [0xK9]. *)
Lemma withdraw_all_to_sender_witness :
  isValidSuiAddress (Sdk := demoSdk)
    (signer_address (demo_owned [] demo_one_cap)) = true /\
  ownedKioskCaps (demo_owned [] demo_one_cap)
    (signer_address (demo_owned [] demo_one_cap)) = demo_one_cap /\
  outcome (withdrawAll (sdk := demoSdk)) (demo_owned [] demo_one_cap) =
  inr tt.
Proof.
  split; [reflexivity |]. split; [reflexivity |].
  exact (proj1 (withdraw_all_to_sender (sdk := demoSdk)
                  (demo_owned [] demo_one_cap) (demo_cap "0xC1" "0xK9") []
                  eq_refl eq_refl)).
Defined.

(** [contents --id 0xK1], and [contents] of the caller's own kiosk. *)
Lemma contents_selects_kiosk_witness :
  showKioskContents (sdk := demoSdk)
    {| con_id := Some "0xK1"; con_address := Some "0xB2" |}
    (demo_owned [] demo_one_cap) = ([EvFetchKiosk "0xK1"], inr tt) /\
  ledger_calls
    (trace (showKioskContents (sdk := demoSdk)
              {| con_id := None; con_address := None |})
       (demo_owned [] demo_one_cap)) =
  [EvGetOwnedKiosks "0xA1"; EvFetchKiosk "0xK9"].
Proof.
  split.
  - exact (proj1 (contents_selects_kiosk (sdk := demoSdk)
                    (demo_owned [] demo_one_cap)
                    {| con_id := Some "0xK1"; con_address := Some "0xB2" |})
             "0xK1" eq_refl eq_refl).
  - destruct (proj2 (contents_selects_kiosk (sdk := demoSdk)
                       (demo_owned [] demo_one_cap)
                       {| con_id := None; con_address := None |})
                eq_refl eq_refl) as (Hcap & _).
    exact (proj2 (Hcap (demo_cap "0xC1" "0xK9") [] eq_refl)).
Defined.

(** [new] by a caller without capability. *)
Lemma new_succeeds_iff_lookup_fails_witness :
  outcome (findKioskCap (sdk := demoSdk) None) (demo_owned [] []) =
  inl (NoKioskFoundFor "0xA1") /\
  snd (newKiosk (sdk := demoSdk) (demo_owned [] [])) = inr tt.
Proof.
  split; [reflexivity |].
  exact (f_equal snd
           (proj1 (new_succeeds_iff_lookup_fails (sdk := demoSdk)
                     (demo_owned [] []))
              (NoKioskFoundFor "0xA1") eq_refl)).
Defined.

(** A policy with a rule the engine does not know. *)
Lemma purchase_follows_resolution_witness :
  purchaseItem_context (sdk := demoSdk) "0x1" (demo_opts None None)
    (demo_listed [demo_mystery] demo_one_cap) =
  (demo_reads, inr (demo_ctx demo_mystery)) /\
  outcome (findKioskCap (sdk := demoSdk) None)
    (demo_listed [demo_mystery] demo_one_cap) =
  inr (demo_cap "0xC1" "0xK9") /\
  rule_resolution (sdk := demoSdk) (demo_opts None None)
    (demo_ctx demo_mystery) (demo_cap "0xC1" "0xK9") [] =
  inl (UnsupportedRule "mystery_rule") /\
  purchaseItem (sdk := demoSdk) "0x1" (demo_opts None None)
    (demo_listed [demo_mystery] demo_one_cap) =
  (demo_reads
   ++ assembly_prefix (demo_listed [demo_mystery] demo_one_cap),
   inl (UnsupportedRule "mystery_rule")).
Proof.
  split; [reflexivity |]. split; [reflexivity |]. split; [reflexivity |].
  destruct (purchase_follows_resolution (sdk := demoSdk)
              (demo_listed [demo_mystery] demo_one_cap) "0x1"
              (demo_opts None None) demo_reads (demo_ctx demo_mystery)
              (demo_cap "0xC1" "0xK9") eq_refl eq_refl) as (Herr & _).
  exact (proj1 (Herr (UnsupportedRule "mystery_rule") eq_refl)).
Defined.

(** A locked purchase with the target ["kiosk"] and with none. *)
Lemma locked_purchase_ignores_target_witness :
  opt_kiosk (demo_opts (Some "kiosk") None) =
  opt_kiosk (demo_opts None None) /\
  opt_env (demo_opts (Some "kiosk") None) = opt_env (demo_opts None None) /\
  invalid_target (sdk := demoSdk)
    (opt_target (demo_opts (Some "kiosk") None)) = false /\
  purchaseItem_context (sdk := demoSdk) "0x1" (demo_opts None None)
    (demo_listed [demo_royalty_lock] demo_one_cap) =
  (demo_reads, inr (demo_ctx demo_royalty_lock)) /\
  purchaseItem (sdk := demoSdk) "0x1" (demo_opts (Some "kiosk") None)
    (demo_listed [demo_royalty_lock] demo_one_cap) =
  purchaseItem (sdk := demoSdk) "0x1" (demo_opts None None)
    (demo_listed [demo_royalty_lock] demo_one_cap).
Proof.
  split; [reflexivity |]. split; [reflexivity |]. split; [reflexivity |].
  split; [reflexivity |].
  exact (locked_purchase_ignores_target (sdk := demoSdk)
           (demo_listed [demo_royalty_lock] demo_one_cap) "0x1"
           (demo_opts None None) (demo_opts (Some "kiosk") None) demo_reads
           (demo_ctx demo_royalty_lock) (demo_cap "0xC1" "0xK9") _
           (ArgResult 0) eq_refl eq_refl eq_refl eq_refl eq_refl eq_refl).
Defined.

(** Listed at 1, delisted at 3, listed again at 5: the listing of 5 is
    shown. *)
Lemma search_hides_closed_listings_witness :
  In (demo_event "0x1" 5)
    (searchType_listings Nat.ltb
       [demo_event "0x1" 1; demo_event "0x1" 5] [demo_event "0x1" 3] []).
Proof.
  apply (proj1 (search_hides_closed_listings Nat.ltb
                  [demo_event "0x1" 1; demo_event "0x1" 5]
                  [demo_event "0x1" 3] [])).
  split; [simpl; tauto |]. split.
  - intros d [<- | []] _. reflexivity.
  - intros p [].
Defined.

(** A royalty rule of the package [0xabc]. *)
Lemma rule_without_package_is_suffix_witness :
  has_char ":" "0xabc" = false /\
  rule_without_package "0xabc::royalty_rule::Rule" = "royalty_rule::Rule".
Proof.
  split; [reflexivity |].
  exact (proj1 (proj2 rule_without_package_is_suffix) "0xabc"
           "royalty_rule::Rule" eq_refl).
Defined.

(** A kiosk with a listed and a locked item: the locked one comes first
    and has no price. *)
Lemma contents_table_unlisted_first_witness :
  map row_objectId
    (tabledItems (fun type => type) (fun amount => amount) demo_items) =
  ["0x2"; "0x1"].
Proof.
  exact (f_equal (map row_objectId)
           (proj1 (contents_table_unlisted_first (fun type => type)
                     (fun amount => amount) demo_items))).
Defined.

(** A capability held by [0xB2] does not change what [0xA1] places. *)
Lemma commands_read_only_callers_capabilities_witness :
  placeItem (sdk := demoSdk) "0x1"
    (with_caps (demo_owned [] demo_one_cap)
       (fun a => if String.eqb a "0xB2" then [demo_cap "0xC7" "0xK7"]
                 else ownedKioskCaps (demo_owned [] demo_one_cap) a)) =
  placeItem (sdk := demoSdk) "0x1" (demo_owned [] demo_one_cap).
Proof.
  exact (proj1 (proj2 (commands_read_only_callers_capabilities
                         (sdk := demoSdk) (demo_owned [] demo_one_cap)
                         (fun a => if String.eqb a "0xB2"
                                   then [demo_cap "0xC7" "0xK7"]
                                   else ownedKioskCaps
                                          (demo_owned [] demo_one_cap) a)
                         eq_refl))
           "0x1").
Defined.

(** The lookup for the explicit address [0xB2], which holds nothing. *)
Lemma findKioskCap_outcomes_witness :
  isValidSuiAddress (Sdk := demoSdk)
    (address_or_signer (Some "0xB2") (demo_owned [] demo_one_cap)) = true /\
  outcome (findKioskCap (sdk := demoSdk) (Some "0xB2"))
    (demo_owned [] demo_one_cap) = inl (NoKioskFoundFor "0xB2").
Proof.
  split; [reflexivity |].
  exact (proj2 (proj2 (proj2 (findKioskCap_outcomes (sdk := demoSdk)
                                (demo_owned [] demo_one_cap) (Some "0xB2")))
                  eq_refl)).
Defined.
